(** * The reward-rate accumulator of myst-balance-app

    A shallow embedding of the class [RewardHistory] (the module the app
    imports as [utils/rewardHistory]) and the properties its specification
    states about it.

    Conventions of the embedding.

    - A [BigNumber] of ethers is an integer of [Z]; [add], [sub], [mul],
      [lt], [gt] are the operations of [Z] and [div] is the truncating
      division [Z.quot] (the divisors of the class are positive).
    - A string that holds an amount in wei is used by the class in two ways
      only: it is handed to [BigNumber.from] and it is tested for
      truthiness.  It is held as what those two uses see of it, [weistr].
    - [Date.now()] is read several times in one call.  Every read is an
      argument of the embedded method, in program order, so that a clock
      that ticks in the middle of a call is covered.
    - The numbers of [RewardStats] are [parseFloat(utils.formatEther(x))]
      for a [BigNumber] [x]; a field of the embedded record is that [x], in
      wei.  [sessionDurationMinutes] is a quotient of two integers and is
      held as a rational.  The [formatted] strings are display only and are
      left out. *)

From Stdlib Require Import Ascii String ZArith QArith Qminmax Lia Sorted.
From stdpp Require Import base list sorting.

Local Open Scope Z_scope.

(** ** Amounts *)

(** What the class sees of a string that should hold wei. *)
Inductive weistr : Type :=
  | Wei (z : Z)               (* [BigNumber.from] reads it as [z]; it is not empty *)
  | NotWei (nonempty : bool). (* [BigNumber.from] throws on it *)

(** JavaScript truthiness of a string: it is not empty. *)
Definition truthy (s : weistr) : bool :=
  match s with
  | Wei _ => true
  | NotWei nonempty => nonempty
  end.

(** [BigNumber.from(s)]; [None] when it throws. *)
Definition BigNumber_from (s : weistr) : option Z :=
  match s with
  | Wei z => Some z
  | NotWei _ => None
  end.

(** The argument [string | number] of [update] and [setInitialAmount], by
    the branch of [toWeiString] it takes. *)
Inductive StringOrNumber : Type :=
  | Numeric (parseEther : option Z)
      (* a number, or a string of digits with an optional fraction;
         [parseEther] is what [utils.parseEther] makes of it, in wei, and
         [None] when that throws (more than 18 decimals, an exponent) *)
  | Verbatim (s : weistr).
      (* any other string *)

(** [utils.parseEther] of a whole number of tokens, as in [update(100)]. *)
Definition ether (c : Z) : StringOrNumber := Numeric (Some (c * 10 ^ 18)).

Definition toWeiString (amount : StringOrNumber) : weistr :=
  match amount with
  | Numeric (Some wei) => Wei wei
  | Numeric None => Wei 0          (* catch (e) { ...; return '0' } *)
  | Verbatim s => s                (* return amount *)
  end.

(** ** State *)

(** [amount] is a string in the source.  The class writes ['0'],
    [difference.toString()] and [toWeiString('0.0001')] there and nothing
    else, so it is held as the integer those strings denote. *)
Record RewardPoint : Type := {
  timestamp : Z;
  amount : Z
}.

Record RewardHistory : Type := {
  history : list RewardPoint;
  lastAmount : weistr;
  initialAmount : option weistr;   (* string | null *)
  startTime : Z;
  initialized : bool
}.

Definition windowMs : Z := 5 * 60 * 1000.

(** The field initialisers; [now] is the [Date.now()] of [startTime]. *)
Definition new_RewardHistory (now : Z) : RewardHistory :=
  {| history := [];
     lastAmount := Wei 0;
     initialAmount := None;
     startTime := now;
     initialized := false |}.

Definition set_history (h : list RewardPoint) (s : RewardHistory) : RewardHistory :=
  {| history := h;
     lastAmount := lastAmount s;
     initialAmount := initialAmount s;
     startTime := startTime s;
     initialized := initialized s |}.

Definition set_lastAmount (a : weistr) (s : RewardHistory) : RewardHistory :=
  {| history := history s;
     lastAmount := a;
     initialAmount := initialAmount s;
     startTime := startTime s;
     initialized := initialized s |}.

Definition set_initialAmount (a : option weistr) (s : RewardHistory) : RewardHistory :=
  {| history := history s;
     lastAmount := lastAmount s;
     initialAmount := a;
     startTime := startTime s;
     initialized := initialized s |}.

Definition set_startTime (t : Z) (s : RewardHistory) : RewardHistory :=
  {| history := history s;
     lastAmount := lastAmount s;
     initialAmount := initialAmount s;
     startTime := t;
     initialized := initialized s |}.

Definition set_initialized (b : bool) (s : RewardHistory) : RewardHistory :=
  {| history := history s;
     lastAmount := lastAmount s;
     initialAmount := initialAmount s;
     startTime := startTime s;
     initialized := b |}.

Definition push (p : RewardPoint) (s : RewardHistory) : RewardHistory :=
  set_history (history s ++ [p]) s.

Definition set_timestamp (t : Z) (p : RewardPoint) : RewardPoint :=
  {| timestamp := t; amount := amount p |}.

(** ** Methods *)

(** [cleanup()]; [now] is its [Date.now()]. *)
Definition cleanup (now : Z) (s : RewardHistory) : RewardHistory :=
  let cutoff := now - windowMs in
  set_history (List.filter (fun point => cutoff <=? timestamp point) (history s)) s.

(** [toWeiString('0.0001')] is [parseEther('0.0001')]: [10 ^ 14] wei. *)
Definition sampleAmount : StringOrNumber := Numeric (Some (10 ^ 14)).

Definition wei_of (s : weistr) : Z :=
  match s with
  | Wei z => z
  | NotWei _ => 0
  end.

(** [initialize()]; [now] is its [Date.now()], read only when the flag is
    off.  The loop runs [i] from 4 down to 0. *)
Definition initialize (now : Z) (s : RewardHistory) : RewardHistory :=
  if initialized s then s
  else
    set_initialized true
      (fold_left
         (fun s' i =>
            push {| timestamp := now - i * 60 * 1000;
                    amount := wei_of (toWeiString sampleAmount) |} s')
         [4; 3; 2; 1; 0] s).

(** [update(currentAmount)].  [currentTime] is the [Date.now()] at its
    head and [cleanupTime] the one of the [cleanup()] at its end, which
    the first call and the reset branch do not reach.  An exception of
    [BigNumber.from] is caught by the [try] around the body: the call
    returns and the state is as it was. *)
Definition update (currentAmount : StringOrNumber) (currentTime cleanupTime : Z)
    (s : RewardHistory) : RewardHistory :=
  let currentWeiStr := toWeiString currentAmount in
  if negb (initialized s) then
    push {| timestamp := currentTime; amount := 0 |}
      (set_initialized true
         (set_startTime currentTime
            (set_lastAmount currentWeiStr
               (set_initialAmount (Some currentWeiStr) s))))
  else
    match BigNumber_from currentWeiStr with
    | None => s
    | Some currentWei =>
      match BigNumber_from (if truthy (lastAmount s) then lastAmount s else Wei 0) with
      | None => s
      | Some lastWei =>
        if currentWei <? lastWei then
          push {| timestamp := currentTime; amount := 0 |}
            (set_startTime currentTime
               (set_initialAmount (Some currentWeiStr)
                  (set_lastAmount currentWeiStr
                     (set_history [] s))))
        else
          let difference := currentWei - lastWei in
          let newPoint := {| timestamp := currentTime; amount := difference |} in
          let s' :=
            if 0 <? difference then
              set_lastAmount currentWeiStr (push newPoint s)
            else if (0 <? length (history s))%nat then
              set_history
                (alter (set_timestamp currentTime) (length (history s) - 1)%nat (history s)) s
            else
              push newPoint s in
          cleanup cleanupTime s'
      end
    end.

Record RateStats : Type := {
  perMinute : Z;
  perHour : Z;
  perDay : Z
}.

Record RewardStats : Type := {
  sessionTotal : Z;
  sessionDurationMinutes : Q;
  sessionPerMinute : Z;
  currentRate : RateStats
}.

(** The session total of [getStats]; [None] when a [BigNumber.from] throws. *)
Definition sessionTotal_of (s : RewardHistory) : option Z :=
  match initialAmount s with
  | Some initial =>
    if truthy initial && truthy (lastAmount s) then
      match BigNumber_from (lastAmount s), BigNumber_from initial with
      | Some lastWei, Some initialWei =>
        let sessionTotal := lastWei - initialWei in
        Some (if 0 <? sessionTotal then sessionTotal else 0)
      | _, _ => None
      end
    else Some 0
  | None => Some 0
  end.

(** [recentPoints.reduce((sum, point) => sum.add(point.amount), 0)]. *)
Definition totalRewards_of (recentPoints : list RewardPoint) : Z :=
  fold_left (fun sum point => sum + amount point) recentPoints 0.

(** [getStats()].  [cleanupTime], [initTime] and [now] are the three
    [Date.now()] of [cleanup()], [initialize()] and the body.  The state
    that is returned is the one [cleanup] and [initialize] leave, also when
    the body throws ([None]). *)
Definition getStats (cleanupTime initTime now : Z) (s : RewardHistory)
    : option RewardStats * RewardHistory :=
  let s := initialize initTime (cleanup cleanupTime s) in
  let fiveMinutesAgo := now - windowMs in
  let sessionDurationMs := now - startTime s in
  let sessionDurationMinutes := Qmax 1 (Qmake sessionDurationMs (60 * 1000)) in
  let recentPoints := List.filter (fun p => fiveMinutesAgo <=? timestamp p) (history s) in
  let totalRewards := totalRewards_of recentPoints in
  match sessionTotal_of s with
  | None => (None, s)
  | Some sessionTotal =>
    let minutesInWindow := 5 in
    let perMinute := Z.quot totalRewards minutesInWindow in
    let sessionPerMinute :=
      if 0 <? sessionDurationMs then Z.quot (sessionTotal * 60000) sessionDurationMs
      else 0 in
    let perHour := perMinute * 60 in
    let perDay := perHour * 24 in
    (Some {| sessionTotal := sessionTotal;
             sessionDurationMinutes := sessionDurationMinutes;
             sessionPerMinute := sessionPerMinute;
             currentRate := {| perMinute := perMinute;
                               perHour := perHour;
                               perDay := perDay |} |}, s)
  end.

(** [reset()]; [now] is its [Date.now()]. *)
Definition reset (now : Z) (s : RewardHistory) : RewardHistory :=
  {| history := [];
     lastAmount := Wei 0;
     initialAmount := None;
     startTime := now;
     initialized := false |}.

(** [setInitialAmount(amount)]; [now] is its [Date.now()]. *)
Definition setInitialAmount (amount : StringOrNumber) (now : Z) (s : RewardHistory)
    : RewardHistory :=
  let weiAmount := toWeiString amount in
  set_initialized true
    (set_startTime now
       (set_lastAmount weiAmount
          (set_initialAmount (Some weiAmount) s))).

(** ** Sequences of calls *)

Inductive call : Type :=
  | Update (currentAmount : StringOrNumber) (currentTime cleanupTime : Z)
  | GetStats (cleanupTime initTime now : Z)
  | Reset (now : Z)
  | SetInitialAmount (amount : StringOrNumber) (now : Z).

Definition step (c : call) (s : RewardHistory) : RewardHistory :=
  match c with
  | Update a t tc => update a t tc s
  | GetStats tc ti now => snd (getStats tc ti now s)
  | Reset now => reset now s
  | SetInitialAmount a now => setInitialAmount a now s
  end.

Definition run (cs : list call) (s : RewardHistory) : RewardHistory :=
  fold_left (fun s c => step c s) cs s.

(** The clock reads of a call, in program order.  A read the call does not
    reach (the [cleanup] of a first [update], the [initialize] of an
    accumulator that is initialized) is listed all the same: it stands for
    the value the clock has at that point. *)
Definition readings (c : call) : list Z :=
  match c with
  | Update _ t tc => [t; tc]
  | GetStats tc ti now => [tc; ti; now]
  | Reset now => [now]
  | SetInitialAmount _ now => [now]
  end.

Definition clock (cs : list call) : list Z := concat (map readings cs).

(** The first clock read of a call: the time it is made at. *)
Definition called_at (c : call) : Z :=
  match c with
  | Update _ t _ => t
  | GetStats tc _ _ => tc
  | Reset now => now
  | SetInitialAmount _ now => now
  end.

(** The argument is one [toWeiString] turns into a string [BigNumber.from]
    reads: what the callers, which pass [formatEther] output, hand in. *)
Definition is_wei (a : StringOrNumber) : bool :=
  match toWeiString a with
  | Wei _ => true
  | NotWei _ => false
  end.

Definition well_formed (c : call) : bool :=
  match c with
  | Update a _ _ => is_wei a
  | SetInitialAmount a _ => is_wei a
  | GetStats _ _ _ => true
  | Reset _ => true
  end.

(** ** Specification vocabulary *)

(** The sum of the deltas of a list of samples. *)
Definition sum_amounts (h : list RewardPoint) : Z :=
  foldr (fun p acc => amount p + acc) 0 h.

(** The sample is inside the window that ends at [now]. *)
Definition in_window (now : Z) (p : RewardPoint) : bool :=
  now - windowMs <=? timestamp p.

Definition le_timestamp (p q : RewardPoint) : Prop :=
  timestamp p <= timestamp q.

(** The amounts the state holds are strings [BigNumber.from] reads. *)
Definition numeric (s : RewardHistory) : bool :=
  match lastAmount s, initialAmount s with
  | Wei _, None => true
  | Wei _, Some (Wei _) => true
  | _, _ => false
  end.

(** The five samples [initialize] seeds at [now]. *)
Definition warmup (now : Z) : list RewardPoint :=
  map (fun i => {| timestamp := now - i * 60000; amount := 10 ^ 14 |}) [4; 3; 2; 1; 0].

(** [lastAmount - initialAmount], clamped at zero; zero without a baseline. *)
Definition session_total (s : RewardHistory) : Z :=
  match initialAmount s with
  | Some initial => Z.max 0 (wei_of (lastAmount s) - wei_of initial)
  | None => 0
  end.

(** One poll: the cumulative value [parseEther] reads and the two clock
    reads of the [update] that reports it. *)
Record poll : Type := {
  cumulative : Z;
  polled_at : Z;
  pruned_at : Z
}.

Definition update_of (u : poll) : call :=
  Update (Numeric (Some (cumulative u))) (polled_at u) (pruned_at u).

(** The numbers of [getStats] from the session total, the session start
    and the total of the window. *)
Definition stats_from (now start total windowTotal : Z) : RewardStats :=
  {| sessionTotal := total;
     sessionDurationMinutes := Qmax 1 (Qmake (now - start) 60000);
     sessionPerMinute :=
       if 0 <? now - start then Z.quot (total * 60000) (now - start) else 0;
     currentRate := {| perMinute := Z.quot windowTotal 5;
                       perHour := Z.quot windowTotal 5 * 60;
                       perDay := Z.quot windowTotal 5 * 60 * 24 |} |}.

(** The state two poll cycles leave: [update(0)] at 0 ms on a fresh
    accumulator and [update(1)] at 1000 ms. *)
Definition two_polls : RewardHistory :=
  run [ Update (ether 0) 0 0; Update (ether 1) 1000 1000 ] (new_RewardHistory 0).

(** What every call keeps, on a clock that does not run backwards; [t] is
    the latest clock value read so far. *)
Record invariant (t : Z) (s : RewardHistory) : Prop := {
  inv_numeric : numeric s = true;
  inv_sorted : StronglySorted le_timestamp (history s);
  inv_past : Forall (fun p => timestamp p <= t) (history s);
  inv_off : initialized s = false -> history s = []
}.

(** The call is an [update] or a [getStats]. *)
Definition prunes (c : call) : bool :=
  match c with
  | Update _ _ _ | GetStats _ _ _ => true
  | Reset _ | SetInitialAmount _ _ => false
  end.

(** The calls are [getStats] and [update] only, and the cumulative values
    of the [update]s do not decrease, starting at or above [lo]. *)
Fixpoint polls_from (lo : Z) (cs : list call) : bool :=
  match cs with
  | [] => true
  | Update (Numeric (Some c)) _ _ :: cs => (lo <=? c) && polls_from c cs
  | GetStats _ _ _ :: cs => polls_from lo cs
  | _ => false
  end.

(** ** Vocabulary of the further properties *)

(** The calls are [update]s with arguments that are amounts, and
    [getStats]. *)
Definition polls (cs : list call) : bool :=
  forallb (fun c => prunes c && well_formed c) cs.

(** The calls are [update]s and [getStats], with any argument. *)
Definition updates_and_reads (cs : list call) : bool := forallb prunes cs.

(** The cumulative value of the last [update] of the run, [lo] when it has
    none. *)
Fixpoint last_cumulative (lo : Z) (cs : list call) : Z :=
  match cs with
  | [] => lo
  | Update (Numeric (Some c)) _ _ :: cs => last_cumulative c cs
  | _ :: cs => last_cumulative lo cs
  end.

(** The baseline, when there is one, is a number not above the last
    amount, which is a number too. *)
Definition baseline_le_last (s : RewardHistory) : Prop :=
  match initialAmount s, lastAmount s with
  | Some (Wei initial), Wei last => initial <= last
  | None, Wei _ => True
  | _, _ => False
  end.

Definition nonneg_deltas (s : RewardHistory) : Prop :=
  Forall (fun p => 0 <= amount p) (history s).

(** A session that an [update] has started: the deltas of the history are
    part of what the session has gained. *)
Record tracking (s : RewardHistory) : Prop := {
  tracking_on : initialized s = true;
  tracking_amounts :
    exists initial last,
      initialAmount s = Some (Wei initial) /\ lastAmount s = Wei last /\
      sum_amounts (history s) <= last - initial;
  tracking_nonneg : nonneg_deltas s
}.

(** The same at clock value [t], with the dates: no sample is older than
    the session, and as long as the window still reaches back to the start
    of the session the deltas of the history are all the session has
    gained. *)
Record young (t : Z) (s : RewardHistory) : Prop := {
  young_on : initialized s = true;
  young_start : startTime s <= t;
  young_dates : Forall (fun p => startTime s <= timestamp p) (history s);
  young_amounts :
    exists initial last,
      initialAmount s = Some (Wei initial) /\ lastAmount s = Wei last /\
      initial <= last /\
      (t <= startTime s + windowMs -> sum_amounts (history s) = last - initial)
}.

(** The calls are [update]s that report the value [c] again, each pruning at
    a clock value within the window of its own time. *)
Definition unchanged (c : Z) (cs : list call) : bool :=
  forallb (fun call =>
             match call with
             | Update (Numeric (Some c')) t tc => (c' =? c) && (tc - windowMs <=? t)
             | _ => false
             end) cs.

(** The reward tracking of [getTotalStakingInfo] in [utils/staking.ts]:
    [if (rewardSum.gt(0)) rewardHistory.update(formatEther(rewardSum))] and
    then [rewardHistory.getStats()].  [parseEther] reads [formatEther] of a
    positive [rewardSum] back as [rewardSum]. *)
Definition trackRewards (rewardSum : Z) (currentTime cleanupTime : Z)
    (statsCleanupTime initTime now : Z) (s : RewardHistory)
    : option RewardStats * RewardHistory :=
  getStats statsCleanupTime initTime now
    (if 0 <? rewardSum then update (Numeric (Some rewardSum)) currentTime cleanupTime s
     else s).

(** One run of [getTotalStakingInfo]: the sum of the rewards it has read and
    the clock reads of its [update] and [getStats]. *)
Record staking_poll : Type := {
  rewardSum : Z;
  update_at : Z;
  update_pruned_at : Z;
  stats_pruned_at : Z;
  stats_seeded_at : Z;
  stats_at : Z
}.

Definition track (p : staking_poll) (s : RewardHistory) : option RewardStats * RewardHistory :=
  trackRewards (rewardSum p) (update_at p) (update_pruned_at p)
    (stats_pruned_at p) (stats_seeded_at p) (stats_at p) s.

Definition track_all (ps : list staking_poll) (s : RewardHistory) : RewardHistory :=
  fold_left (fun s p => snd (track p s)) ps s.

(** ** The one-minute tracker

    The class [RewardTracker]: samples of a reward, kept for one minute.
    The [reward] of a sample and [lastProcessedReward] are strings that the
    class writes with [BigNumber.toString()] only; they are held as the
    integers they denote.  The [total] and [perMinute] of a result are the
    wei amounts that the source hands to [formatEther]. *)

Module RewardTracker.

Record RewardDataPoint : Type := {
  timestamp : Z;
  reward : Z
}.

Record RewardTracker : Type := {
  rewardHistory : list RewardDataPoint;
  lastProcessedReward : Z
}.

Definition maxAgeMs : Z := 60 * 1000.

Definition new_RewardTracker : RewardTracker :=
  {| rewardHistory := []; lastProcessedReward := 0 |}.

Definition set_rewardHistory (h : list RewardDataPoint) (s : RewardTracker) : RewardTracker :=
  {| rewardHistory := h; lastProcessedReward := lastProcessedReward s |}.

(** [Array.prototype.findIndex]: the index of the first element that
    satisfies [f], and -1 when there is none. *)
Fixpoint findIndex {A : Type} (f : A -> bool) (l : list A) : Z :=
  match l with
  | [] => -1
  | x :: l' =>
    if f x then 0
    else let i := findIndex f l' in if i <? 0 then -1 else i + 1
  end.

(** [cleanupOldData()]; [now] is its [Date.now()]. *)
Definition cleanupOldData (now : Z) (s : RewardTracker) : RewardTracker :=
  let cutoff := now - maxAgeMs in
  let firstValidIndex :=
    findIndex (fun point => cutoff <=? timestamp point) (rewardHistory s) in
  if 0 <? firstValidIndex then
    set_rewardHistory (drop (Z.to_nat firstValidIndex) (rewardHistory s)) s
  else s.

(** [addReward(reward)]; [now] is its [Date.now()] and [cleanupTime] the one
    of [cleanupOldData()].  [None]: [BigNumber.from] throws, before anything
    is written. *)
Definition addReward (reward : weistr) (now cleanupTime : Z) (s : RewardTracker)
    : option RewardTracker :=
  match BigNumber_from reward with
  | None => None
  | Some rewardWei =>
    Some (cleanupOldData cleanupTime
            (set_rewardHistory
               (rewardHistory s ++ [ {| timestamp := now; reward := rewardWei |} ]) s))
  end.

Record LastMinute : Type := {
  total : Z;
  perMinute : Z;
  dataPoints : list RewardDataPoint
}.

Section GetRewardsLastMinute.

(** [Math.floor(((60 * 1000) / timeSpanMs) * 1000)] for a positive
    [timeSpanMs].  The source takes the quotient and the product in
    floating point; the function is left open here. *)
Variable scaledTimeFactor : Z -> Z.

(** [getRewardsLastMinute()]; [cleanupTime] is the [Date.now()] of
    [cleanupOldData()]. *)
Definition getRewardsLastMinute (cleanupTime : Z) (s : RewardTracker)
    : LastMinute * RewardTracker :=
  let s := cleanupOldData cleanupTime s in
  match rewardHistory s with
  | [] => ({| total := 0; perMinute := 0; dataPoints := [] |}, s)
  | firstPoint :: _ =>
    let totalWei := fold_left (fun sum point => sum + reward point) (rewardHistory s) 0 in
    let lastPoint := List.last (rewardHistory s) firstPoint in
    let timeSpanMs := timestamp lastPoint - timestamp firstPoint in
    let perMinuteWei :=
      if 0 <? timeSpanMs then Z.quot (totalWei * scaledTimeFactor timeSpanMs) 1000
      else totalWei in
    ({| total := totalWei; perMinute := perMinuteWei; dataPoints := rewardHistory s |}, s)
  end.

End GetRewardsLastMinute.

(** [getRewardDifference(currentReward)]: the difference and the state.
    [None]: [BigNumber.from] throws, before anything is written. *)
Definition getRewardDifference (currentReward : weistr) (s : RewardTracker)
    : option (Z * RewardTracker) :=
  match BigNumber_from currentReward with
  | None => None
  | Some currentWei =>
    let lastWei := lastProcessedReward s in
    let s' := {| rewardHistory := rewardHistory s; lastProcessedReward := currentWei |} in
    if currentWei <? lastWei then Some (0, s')
    else Some (currentWei - lastWei, s')
  end.

(** [addReward] for each sample of a list: the reward and the two clock
    reads. *)
Fixpoint addRewards (rs : list (Z * Z * Z)) (s : RewardTracker) : RewardTracker :=
  match rs with
  | [] => s
  | (r, now, cleanupTime) :: rs =>
    match addReward (Wei r) now cleanupTime s with
    | Some s' => addRewards rs s'
    | None => s
    end
  end.

(** [getRewardDifference] for each reading of a list: the differences it
    returns, in order, and the state. *)
Fixpoint getRewardDifferences (cs : list Z) (s : RewardTracker) : list Z * RewardTracker :=
  match cs with
  | [] => ([], s)
  | c :: cs =>
    match getRewardDifference (Wei c) s with
    | Some (d, s') => let (ds, s'') := getRewardDifferences cs s' in (d :: ds, s'')
    | None => ([], s)
    end
  end.

(** The clock reads of [addRewards], in program order. *)
Definition clock (rs : list (Z * Z * Z)) : list Z :=
  concat (map (fun x => [snd (fst x); snd x]) rs).

Definition recent (now : Z) (p : RewardDataPoint) : bool :=
  now - maxAgeMs <=? timestamp p.

Definition sum_rewards (h : list RewardDataPoint) : Z :=
  foldr (fun p acc => reward p + acc) 0 h.

Definition le_timestamp (p q : RewardDataPoint) : Prop :=
  timestamp p <= timestamp q.

End RewardTracker.

(** ** [formatNumber]

    [formatNumber(value, decimals)] of [utils/format.ts].  [parseFloat],
    [isNaN] and [toFixed] work on floating-point numbers and are taken as
    done: the argument [num] is [None] when [isNaN(num)] holds and is the
    string [num.toFixed(decimals)] otherwise.  What the function does with
    that string is embedded as it is written.  A string is a list of
    characters. *)

Module Format.

(** [\d]: a decimal digit. *)
Definition is_digit (c : ascii) : bool :=
  (48 <=? nat_of_ascii c)%nat && (nat_of_ascii c <=? 57)%nat.

(** [\w]: a letter, a digit or the underscore. *)
Definition is_word (c : ascii) : bool :=
  is_digit c
  || ((65 <=? nat_of_ascii c)%nat && (nat_of_ascii c <=? 90)%nat)
  || ((97 <=? nat_of_ascii c)%nat && (nat_of_ascii c <=? 122)%nat)
  || (nat_of_ascii c =? 95)%nat.

Definition word_at (c : option ascii) : bool :=
  match c with
  | Some c => is_word c
  | None => false
  end.

(** The length of the run of digits at the head of [s]. *)
Fixpoint digit_run (s : list ascii) : nat :=
  match s with
  | c :: s' => if is_digit c then S (digit_run s') else 0%nat
  | [] => 0%nat
  end.

(** [/\B(?=(\d{3})+(?!\d))/] matches at the position between [prev] and
    [rest].  [\B]: the characters on the two sides are both word characters
    or both not (the ends of the string count as not).  The lookahead: some
    positive multiple of three digits follows and no digit follows them,
    which is to say that the run of digits at the position has such a
    length. *)
Definition separator_here (prev : option ascii) (rest : list ascii) : bool :=
  Bool.eqb (word_at prev) (word_at (head rest))
  && (0 <? digit_run rest)%nat
  && (digit_run rest mod 3 =? 0)%nat.

(** [s.replace(/\B(?=(\d{3})+(?!\d))/g, '.')] from a position on: the
    matches are empty, so every match puts a ['.'] in front of the
    character that follows. *)
Fixpoint replace_separators (prev : option ascii) (s : list ascii) : list ascii :=
  let here := if separator_here prev s then [ "."%char ] else [] in
  match s with
  | [] => here
  | c :: s' => here ++ c :: replace_separators (Some c) s'
  end.

(** [s.split(sep)] for a separator of one character. *)
Fixpoint split (sep : ascii) (s : list ascii) : list (list ascii) :=
  match s with
  | [] => [ [] ]
  | c :: s' =>
    if Ascii.eqb c sep then [] :: split sep s'
    else match split sep s' with
         | part :: parts => (c :: part) :: parts
         | [] => [ [ c ] ]
         end
  end.

(** [parts.join(sep)]. *)
Fixpoint join (sep : ascii) (parts : list (list ascii)) : list ascii :=
  match parts with
  | [] => []
  | [ part ] => part
  | part :: parts => part ++ sep :: join sep parts
  end.

Definition formatNumber (num : option (list ascii)) (decimals : nat) : list ascii :=
  match num with
  | None =>
    "0"%char :: (if (0 <? decimals)%nat then ","%char :: repeat "0"%char decimals else [])
  | Some fixed =>
    let parts := split "."%char fixed in
    let parts :=
      match parts with
      | integer :: rest => replace_separators None integer :: rest
      | [] => []
      end in
    join ","%char parts
  end.

(** The string is made of decimal digits. *)
Definition digits (s : list ascii) : Prop := Forall (fun c => is_digit c = true) s.

End Format.

(** ** [padAddress]

    The helper of the balance query that turns an address into the 32-byte
    word of the call data.  A string is a list of ASCII characters. *)

Module Address.

Definition is_upper (c : ascii) : bool :=
  (65 <=? nat_of_ascii c)%nat && (nat_of_ascii c <=? 90)%nat.

(** [toLowerCase()], character by character. *)
Definition lower (c : ascii) : ascii :=
  if is_upper c then ascii_of_nat (nat_of_ascii c + 32) else c.

Definition toLowerCase (s : list ascii) : list ascii := map lower s.

(** [s.replace('0x', '')]: the first occurrence of ['0x'] is taken out. *)
Fixpoint replace_0x (s : list ascii) : list ascii :=
  match s with
  | [] => []
  | c :: s' =>
    match s' with
    | d :: s'' =>
      if Ascii.eqb c "0"%char && Ascii.eqb d "x"%char then s''
      else c :: replace_0x s'
    | [] => [ c ]
    end
  end.

(** [s.padStart(targetLength, '0')]. *)
Definition padStart (targetLength : nat) (s : list ascii) : list ascii :=
  repeat "0"%char (targetLength - length s) ++ s.

Definition padAddress (address : list ascii) : list ascii :=
  padStart 64 (replace_0x (toLowerCase address)).

(** A hexadecimal digit, in either case. *)
Definition is_hex (c : ascii) : bool :=
  ((48 <=? nat_of_ascii c)%nat && (nat_of_ascii c <=? 57)%nat)
  || ((65 <=? nat_of_ascii c)%nat && (nat_of_ascii c <=? 70)%nat)
  || ((97 <=? nat_of_ascii c)%nat && (nat_of_ascii c <=? 102)%nat).

End Address.

(** ** [withRetry]

    The retry loop of the transfer queries.  The request is a function of
    the number of calls made before: what the n-th call settles with.  A
    rejection carries the [statusCode] and the [code] of the error, each a
    number or not a number ([undefined], a name such as ['SERVER_ERROR']).
    [maxRetries] is a whole number that is not negative and [delay] a
    whole number of milliseconds.  The result comes with the waits of
    [setTimeout], in order. *)

Module Retry.

Record error : Type := {
  statusCode : option Z;
  code : option Z
}.

Inductive outcome (T : Type) : Type :=
  | Resolved (value : T)
  | Rejected (e : error).

Arguments Resolved {T} value.
Arguments Rejected {T} e.

Inductive result (T : Type) : Type :=
  | Returned (value : T)
  | Threw (lastError : option error).
      (* [None]: [new Error('Max retries exceeded')] *)

Arguments Returned {T} value.
Arguments Threw {T} lastError.

(** [error.statusCode || error.code]: a [statusCode] of zero is falsy. *)
Definition status (e : error) : option Z :=
  match statusCode e with
  | Some n => if n =? 0 then code e else Some n
  | None => code e
  end.

(** [status === 429 || (status >= 500 && status < 600)]. *)
Definition retryable (e : error) : bool :=
  match status e with
  | Some n => (n =? 429) || ((500 <=? n) && (n <? 600))
  | None => false
  end.

(** The loop from [attempt] on with [remaining] rounds to go, and the
    [throw] after it. *)
Fixpoint attempts {T : Type} (request : nat -> outcome T) (delay : Z)
    (remaining attempt : nat) (lastError : option error) : result T * list Z :=
  match remaining with
  | O => (Threw lastError, [])
  | S remaining' =>
    match request attempt with
    | Resolved value => (Returned value, [])
    | Rejected e =>
      if retryable e then
        let waitTime := delay * 2 ^ Z.of_nat attempt in
        let (r, waits) := attempts request delay remaining' (S attempt) (Some e) in
        (r, waitTime :: waits)
      else (Threw (Some e), [])
    end
  end.

Definition withRetry {T : Type} (request : nat -> outcome T) (maxRetries : nat) (delay : Z)
    : result T * list Z :=
  attempts request delay maxRetries 0 None.

End Retry.

(** ** The methods on small inputs *)

(** [reset()], [update(0)], and one minute later [update('0.0001')]: a
    session total of [10 ^ 14] wei, and a window rate of a fifth of it. *)
Example first_minute :
  fst (getStats 60000 60000 60000
         (run [ Reset 0; Update (ether 0) 0 0; Update (Numeric (Some (10 ^ 14))) 60000 60000 ]
            (new_RewardHistory 0)))
  = Some {| sessionTotal := 10 ^ 14;
            sessionDurationMinutes := 1;
            sessionPerMinute := 10 ^ 14;
            currentRate := {| perMinute := 2 * 10 ^ 13;
                              perHour := 12 * 10 ^ 14;
                              perDay := 288 * 10 ^ 14 |} |}.
Proof. reflexivity. Qed.

(** The same value polled again and again: the last sample is re-dated,
    the window never grows. *)
Example repeated_value :
  history (run [ Update (ether 3) 0 0; Update (ether 3) 30000 30000;
                 Update (ether 3) 60000 60000 ] (new_RewardHistory 0))
  = [ {| timestamp := 60000; amount := 0 |} ].
Proof. reflexivity. Qed.

(** An argument [BigNumber.from] cannot read is dropped by a later
    [update], and makes [getStats] throw when the first [update] has
    stored it as the baseline. *)
Example unreadable_argument :
  update (Verbatim (NotWei true)) 5000 5000 two_polls = two_polls /\
  fst (getStats 1 1 1 (update (Verbatim (NotWei true)) 0 0 (new_RewardHistory 0))) = None.
Proof. split; reflexivity. Qed.

(** ** The methods, field by field *)

Section Fields.
Context (s : RewardHistory).

Lemma history_cleanup now :
  history (cleanup now s) = List.filter (in_window now) (history s).
Proof. reflexivity. Qed.

Lemma initialize_off now :
  initialized s = false ->
  initialize now s = set_initialized true (set_history (history s ++ warmup now) s).
Proof.
  intros Hoff. unfold initialize. rewrite Hoff. cbn [fold_left].
  unfold push, set_history, set_initialized, warmup; cbn.
  rewrite <- !app_assoc. cbn.
  do 5 f_equal; f_equal; f_equal; lia.
Qed.

Lemma initialize_on now : initialized s = true -> initialize now s = s.
Proof. intros Hon. unfold initialize. now rewrite Hon. Qed.

Lemma update_first a t tc :
  initialized s = false ->
  update a t tc s =
    {| history := history s ++ [ {| timestamp := t; amount := 0 |} ];
       lastAmount := toWeiString a;
       initialAmount := Some (toWeiString a);
       startTime := t;
       initialized := true |}.
Proof. intros Hoff. unfold update. now rewrite Hoff. Qed.

(** A later call that reads [current] wei against [last] wei. *)
Lemma update_later a t tc current last :
  initialized s = true ->
  toWeiString a = Wei current ->
  lastAmount s = Wei last ->
  update a t tc s =
    if current <? last then
      {| history := [ {| timestamp := t; amount := 0 |} ];
         lastAmount := Wei current;
         initialAmount := Some (Wei current);
         startTime := t;
         initialized := true |}
    else if 0 <? current - last then
      cleanup tc (set_lastAmount (Wei current)
                    (push {| timestamp := t; amount := current - last |} s))
    else if (0 <? length (history s))%nat then
      cleanup tc (set_history
                    (alter (set_timestamp t) (length (history s) - 1)%nat (history s)) s)
    else
      cleanup tc (push {| timestamp := t; amount := current - last |} s).
Proof.
  intros Hon Ha Hl. unfold update. rewrite Hon, Ha, Hl. cbn.
  destruct (current <? last).
  { unfold push, set_startTime, set_initialAmount, set_lastAmount, set_history; cbn.
    now rewrite Hon. }
  destruct (0 <? current - last); [reflexivity|].
  now destruct (length (history s)).
Qed.
End Fields.

(** ** What [getStats] computes *)

Lemma totalRewards_of_sum h : totalRewards_of h = sum_amounts h.
Proof.
  unfold totalRewards_of.
  enough (Hgen : forall acc, fold_left (fun sum point => sum + amount point) h acc
                             = acc + sum_amounts h) by (now rewrite Hgen).
  unfold sum_amounts.
  induction h as [|p h IH]; intros acc; cbn; [lia|]. rewrite IH. lia.
Qed.

Lemma sessionTotal_of_numeric s :
  numeric s = true -> sessionTotal_of s = Some (session_total s).
Proof.
  unfold numeric, sessionTotal_of, session_total.
  destruct (lastAmount s) as [l|]; [|discriminate].
  destruct (initialAmount s) as [[i|]|]; try discriminate; intros _; [|reflexivity].
  cbn. f_equal. destruct (Z.ltb_spec 0 (l - i)); lia.
Qed.

Lemma sessionTotal_of_frame s s' :
  lastAmount s' = lastAmount s -> initialAmount s' = initialAmount s ->
  sessionTotal_of s' = sessionTotal_of s.
Proof. unfold sessionTotal_of. now intros -> ->. Qed.

Lemma initialize_fields now s :
  lastAmount (initialize now s) = lastAmount s /\
  initialAmount (initialize now s) = initialAmount s /\
  startTime (initialize now s) = startTime s.
Proof.
  destruct (initialized s) eqn:Hi.
  - now rewrite initialize_on.
  - now rewrite initialize_off.
Qed.

Lemma history_initialize now s :
  history (initialize now s) = if initialized s then history s else history s ++ warmup now.
Proof.
  destruct (initialized s) eqn:Hi.
  - now rewrite initialize_on.
  - now rewrite initialize_off.
Qed.

Lemma initialized_initialize now s : initialized (initialize now s) = true.
Proof.
  destruct (initialized s) eqn:Hi.
  - now rewrite initialize_on.
  - now rewrite initialize_off.
Qed.

Lemma getStats_state tc ti now s :
  snd (getStats tc ti now s) = initialize ti (cleanup tc s).
Proof. unfold getStats. now destruct (sessionTotal_of _). Qed.

Lemma getStats_sessionTotal_of tc ti s :
  sessionTotal_of (initialize ti (cleanup tc s)) = sessionTotal_of s.
Proof.
  destruct (initialize_fields ti (cleanup tc s)) as (Hl & Hi & _).
  now apply sessionTotal_of_frame.
Qed.

(** The result of [getStats] on a state whose amounts are numbers. *)
Lemma getStats_numeric tc ti now s :
  numeric s = true ->
  let s' := initialize ti (cleanup tc s) in
  let perMinute := Z.quot (sum_amounts (List.filter (in_window now) (history s'))) 5 in
  getStats tc ti now s =
    (Some {| sessionTotal := session_total s;
             sessionDurationMinutes := Qmax 1 (Qmake (now - startTime s) 60000);
             sessionPerMinute :=
               if 0 <? now - startTime s
               then Z.quot (session_total s * 60000) (now - startTime s) else 0;
             currentRate := {| perMinute := perMinute;
                               perHour := perMinute * 60;
                               perDay := perMinute * 60 * 24 |} |}, s').
Proof.
  intros Hnum s' perMinute. unfold getStats. fold s'.
  unfold s' at 1. rewrite getStats_sessionTotal_of, (sessionTotal_of_numeric s Hnum).
  destruct (initialize_fields ti (cleanup tc s)) as (_ & _ & Hst).
  fold s' in Hst. cbn in Hst. rewrite Hst, totalRewards_of_sum. reflexivity.
Qed.

(** [getStats] throws exactly when [sessionTotal_of] does. *)
Lemma getStats_throws tc ti now s :
  fst (getStats tc ti now s) = None <-> sessionTotal_of s = None.
Proof.
  unfold getStats. rewrite getStats_sessionTotal_of.
  destruct (sessionTotal_of s); cbn; split; congruence.
Qed.

(** ** [update] on the amounts *)

(** After [update] with an argument [parseEther] reads, the call has been
    recorded: the accumulator is initialized and [lastAmount] is the
    argument. *)
Lemma update_lastAmount s w t tc :
  numeric s = true ->
  let s' := update (Numeric (Some w)) t tc s in
  initialized s' = true /\ lastAmount s' = Wei w /\ numeric s' = true.
Proof.
  intros Hnum. destruct (initialized s) eqn:Hi; cbn zeta.
  - unfold numeric in Hnum. destruct (lastAmount s) as [l|] eqn:Hl; [|discriminate].
    rewrite (update_later s (Numeric (Some w)) t tc w l Hi eq_refl Hl).
    destruct (Z.ltb_spec w l); [now cbn|].
    destruct (Z.ltb_spec 0 (w - l)).
    { cbn. unfold numeric; cbn. now destruct (initialAmount s) as [[?|?]|]. }
    assert (w = l) as -> by lia.
    destruct (0 <? length (history s))%nat; cbn; unfold numeric; cbn; rewrite Hi, Hl;
      now destruct (initialAmount s) as [[?|?]|].
  - now rewrite update_first.
Qed.

(** A later [update] that does not decrease leaves the baseline alone. *)
Lemma update_nondecreasing s w l t tc :
  initialized s = true -> lastAmount s = Wei l -> l <= w ->
  let s' := update (Numeric (Some w)) t tc s in
  initialized s' = true /\ lastAmount s' = Wei w /\ initialAmount s' = initialAmount s.
Proof.
  intros Hi Hl Hle. cbn zeta. rewrite (update_later s (Numeric (Some w)) t tc w l Hi eq_refl Hl).
  destruct (Z.ltb_spec w l); [lia|].
  destruct (Z.ltb_spec 0 (w - l)); [now cbn|].
  assert (w = l) as -> by lia.
  destruct (0 <? length (history s))%nat; now cbn.
Qed.

Lemma run_cons c cs s : run (c :: cs) s = run cs (step c s).
Proof. reflexivity. Qed.

(** [reset] leaves the accumulator as the constructor makes it. *)
Lemma reset_new now s : reset now s = new_RewardHistory now.
Proof. reflexivity. Qed.

Lemma numeric_step c s :
  numeric s = true -> well_formed c = true -> numeric (step c s) = true.
Proof.
  intros Hnum Hwf. destruct c as [a t tc|tc ti now|now|a now]; cbn [step well_formed] in *.
  - unfold is_wei in Hwf. destruct (toWeiString a) as [w|] eqn:Hw; [|discriminate].
    destruct (initialized s) eqn:Hi.
    + unfold numeric in Hnum. destruct (lastAmount s) as [l|] eqn:Hl; [|discriminate].
      rewrite (update_later s a t tc w l Hi Hw Hl).
      destruct (w <? l); [reflexivity|].
      destruct (0 <? w - l); [|destruct (0 <? length (history s))%nat];
        unfold numeric; cbn; rewrite ?Hl; now destruct (initialAmount s) as [[?|?]|].
    + rewrite (update_first s a t tc Hi), Hw. reflexivity.
  - rewrite getStats_state. unfold numeric in *.
    destruct (initialize_fields ti (cleanup tc s)) as (-> & -> & _). exact Hnum.
  - reflexivity.
  - unfold is_wei in Hwf. destruct (toWeiString a) as [w|] eqn:Hw; [|discriminate].
    unfold numeric; cbn. now rewrite Hw.
Qed.

(** Every state the callers reach with arguments that are amounts holds
    amounts that are numbers. *)
Lemma numeric_run cs : forall s,
  numeric s = true -> forallb well_formed cs = true -> numeric (run cs s) = true.
Proof.
  induction cs as [|c cs IH]; intros s Hnum Hwf; [exact Hnum|].
  cbn [forallb] in Hwf. apply andb_prop in Hwf as [Hc Hcs].
  rewrite run_cons. apply IH; [now apply numeric_step|exact Hcs].
Qed.

Lemma last_cons_default (x d : Z) ws : List.last (x :: ws) d = List.last ws x.
Proof.
  revert x d. induction ws as [|w ws IH]; intros x d; [reflexivity|].
  change (List.last (w :: ws) d = List.last (w :: ws) x). now rewrite !IH.
Qed.

Lemma run_updates_nondecreasing us : forall s l,
  initialized s = true -> lastAmount s = Wei l ->
  Sorted Z.le (l :: map cumulative us) ->
  let s' := run (map update_of us) s in
  initialized s' = true /\
  lastAmount s' = Wei (List.last (map cumulative us) l) /\
  initialAmount s' = initialAmount s.
Proof.
  induction us as [|u us IH]; intros s l Hi Hl Hsorted; [now cbn|].
  cbn [map]. rewrite run_cons. cbn [step update_of].
  inversion Hsorted as [|? ? Htail Hhd]; subst. inversion Hhd as [|? ? Hle]; subst.
  destruct (update_nondecreasing s (cumulative u) l (polled_at u) (pruned_at u) Hi Hl Hle)
    as (Hi' & Hl' & Hb').
  destruct (IH _ _ Hi' Hl' Htail) as (Hi'' & Hl'' & Hb'').
  cbn zeta in *. rewrite Hb'' , Hb'. repeat split; [exact Hi''|].
  rewrite Hl''. f_equal. symmetry. apply last_cons_default.
Qed.

Lemma sorted_first_le_last (l : Z) ws :
  Sorted Z.le (l :: ws) -> l <= List.last ws l.
Proof.
  intros Hs. apply Sorted_StronglySorted in Hs; [|intros ? ? ?; lia].
  inversion Hs as [|? ? _ Hall]; subst.
  destruct ws as [|w ws] using rev_ind; [cbn; lia|].
  rewrite List.last_last. rewrite Forall_app, Forall_singleton in Hall. tauto.
Qed.

(** ** The claims about [update] *)

(** C4. The first [update(c)] on an accumulator in the uninitialized state
    sets the baseline and the last amount to [c] and the session start to
    the time of the call, turns the flag on, and appends exactly one
    zero-delta sample dated at the call to the history.  It does nothing
    else: the samples that were there stay, none is pruned, and the clock
    read of [cleanup] plays no part. *)
Theorem first_update_sets_baseline (s : RewardHistory) (c : StringOrNumber)
    (now cleanupTime : Z) :
  initialized s = false ->
  update c now cleanupTime s =
    {| history := history s ++ [ {| timestamp := now; amount := 0 |} ];
       lastAmount := toWeiString c;
       initialAmount := Some (toWeiString c);
       startTime := now;
       initialized := true |}.
Proof. apply update_first. Qed.

Lemma first_update_sets_baseline_witness :
  initialized (new_RewardHistory 7) = false /\
  update (ether 100) 1000 1000 (new_RewardHistory 7) =
    {| history := [ {| timestamp := 1000; amount := 0 |} ];
       lastAmount := Wei (100 * 10 ^ 18);
       initialAmount := Some (Wei (100 * 10 ^ 18));
       startTime := 1000;
       initialized := true |}.
Proof.
  split; [reflexivity|].
  apply (first_update_sets_baseline (new_RewardHistory 7) (ether 100) 1000 1000).
  reflexivity.
Defined.

(** C3. When [update(a)] is followed by [update(b)] with [b < a], then
    after the second call the history is exactly one zero-delta sample
    dated at the second call, the baseline and the last amount are both
    [b], the session starts at the second call, and [getStats] reports a
    session total of zero. *)
Theorem rollback_resets_session (s : RewardHistory) (a b : Z)
    (ta ta' tb tb' tc ti now : Z) :
  numeric s = true ->
  b < a ->
  let s1 := update (Numeric (Some a)) ta ta' s in
  let s2 := update (Numeric (Some b)) tb tb' s1 in
  history s2 = [ {| timestamp := tb; amount := 0 |} ] /\
  initialAmount s2 = Some (Wei b) /\
  lastAmount s2 = Wei b /\
  startTime s2 = tb /\
  exists stats, fst (getStats tc ti now s2) = Some stats /\ sessionTotal stats = 0.
Proof.
  intros Hnum Hlt s1 s2.
  destruct (update_lastAmount s a ta ta' Hnum) as (Hi1 & Hl1 & _). fold s1 in Hi1, Hl1.
  assert (Hs2 : s2 = {| history := [ {| timestamp := tb; amount := 0 |} ];
                        lastAmount := Wei b;
                        initialAmount := Some (Wei b);
                        startTime := tb;
                        initialized := true |}).
  { unfold s2. rewrite (update_later s1 (Numeric (Some b)) tb tb' b a Hi1 eq_refl Hl1).
    destruct (Z.ltb_spec b a); [reflexivity|lia]. }
  rewrite Hs2. repeat split.
  rewrite getStats_numeric by reflexivity. cbn [fst].
  eexists; split; [reflexivity|]. cbn. unfold session_total. cbn. lia.
Qed.

Lemma rollback_resets_session_witness :
  let s1 := update (ether 100) 1000 1000 (new_RewardHistory 0) in
  let s2 := update (ether 50) 31000 31000 s1 in
  numeric (new_RewardHistory 0) = true /\
  50 * 10 ^ 18 < 100 * 10 ^ 18 /\
  history s2 = [ {| timestamp := 31000; amount := 0 |} ] /\
  initialAmount s2 = Some (Wei (50 * 10 ^ 18)) /\
  lastAmount s2 = Wei (50 * 10 ^ 18) /\
  startTime s2 = 31000 /\
  exists stats, fst (getStats 31001 31001 31001 s2) = Some stats /\ sessionTotal stats = 0.
Proof.
  intros s1 s2. split; [reflexivity|]. split; [reflexivity|].
  apply (rollback_resets_session (new_RewardHistory 0) (100 * 10 ^ 18) (50 * 10 ^ 18)
           1000 1000 31000 31000 31001 31001 31001).
  - reflexivity.
  - reflexivity.
Defined.

(** C1. Take an accumulator that is freshly constructed or reset (its flag
    is off) and a sequence of [update] calls whose cumulative values
    [c0 <= c1 <= ... <= cn] do not decrease, with nothing else in between.
    A [getStats] that follows returns the session total [cn - c0], whatever
    the clock read at any of the calls. *)
Theorem monotonic_accumulation (s : RewardHistory) (u0 : poll) (us : list poll)
    (tc ti now : Z) :
  initialized s = false ->
  Sorted Z.le (map cumulative (u0 :: us)) ->
  let cn := List.last (map cumulative us) (cumulative u0) in
  exists stats,
    fst (getStats tc ti now (run (map update_of (u0 :: us)) s)) = Some stats /\
    sessionTotal stats = cn - cumulative u0 /\
    sessionTotal stats = Z.max 0 (cn - cumulative u0).
Proof.
  intros Hoff Hsorted cn. cbn [map] in *. rewrite run_cons. cbn [step update_of].
  rewrite (update_first s _ _ _ Hoff). cbn [toWeiString].
  set (s1 := {| history := _ |}).
  destruct (run_updates_nondecreasing us s1 (cumulative u0) eq_refl eq_refl Hsorted)
    as (Hi & Hl & Hb). cbn zeta in *. fold cn in Hl.
  set (sn := run (map update_of us) s1) in *.
  assert (Hnum : numeric sn = true) by (unfold numeric; now rewrite Hl, Hb).
  rewrite getStats_numeric by exact Hnum. cbn [fst].
  eexists; split; [reflexivity|]. cbn [sessionTotal].
  unfold session_total. rewrite Hl, Hb. cbn [initialAmount s1 wei_of].
  pose proof (sorted_first_le_last _ _ Hsorted). fold cn in H. lia.
Qed.

Lemma monotonic_accumulation_witness :
  let u0 := {| cumulative := 0; polled_at := 1000; pruned_at := 1000 |} in
  let us := [ {| cumulative := 10 ^ 14; polled_at := 61000; pruned_at := 61001 |};
              {| cumulative := 10 ^ 14; polled_at := 91000; pruned_at := 91000 |};
              {| cumulative := 3 * 10 ^ 14; polled_at := 900000; pruned_at := 900000 |} ] in
  initialized (reset 500 two_polls) = false /\
  Sorted Z.le (map cumulative (u0 :: us)) /\
  exists stats,
    fst (getStats 900500 900500 900500
           (run (map update_of (u0 :: us)) (reset 500 two_polls))) = Some stats /\
    sessionTotal stats = 3 * 10 ^ 14 - 0 /\
    sessionTotal stats = Z.max 0 (3 * 10 ^ 14 - 0).
Proof.
  intros u0 us.
  assert (Hsorted : Sorted Z.le (map cumulative (u0 :: us))).
  { cbn. repeat constructor; lia. }
  split; [reflexivity|]. split; [exact Hsorted|].
  exact (monotonic_accumulation (reset 500 two_polls) u0 us 900500 900500 900500
           eq_refl Hsorted).
Defined.

(** In-place update of the last sample of a history that is not empty. *)
Lemma alter_last_snoc (f : RewardPoint -> RewardPoint) h p :
  alter f (length (h ++ [p]) - 1)%nat (h ++ [p]) = h ++ [f p].
Proof.
  rewrite length_app. cbn [length].
  replace (length h + 1 - 1)%nat with (length h + 0)%nat by lia.
  now rewrite alter_app_r.
Qed.

(** C7. When [update(c)] is called on an initialized accumulator whose
    last amount is already [c], the call prunes a history [h'] that is the
    old history with nothing but the date of its most recent sample
    changed, to the time of the call: same length, same deltas, every
    other sample as it was.  When the old history is empty, [h'] is one
    zero-delta sample dated at the call.  No other field changes. *)
Theorem zero_delta_extends_last_sample (s : RewardHistory) (c now cleanupTime : Z) :
  initialized s = true ->
  lastAmount s = Wei c ->
  exists h',
    update (Numeric (Some c)) now cleanupTime s = cleanup cleanupTime (set_history h' s) /\
    (history s <> [] ->
       length h' = length (history s) /\
       map amount h' = map amount (history s) /\
       (forall i p, history s !! i = Some p ->
          h' !! i = Some (if decide (i = length (history s) - 1)%nat
                          then set_timestamp now p else p)) /\
       timestamp <$> last h' = Some now) /\
    (history s = [] -> h' = [ {| timestamp := now; amount := 0 |} ]).
Proof.
  intros Hon Hlast.
  rewrite (update_later s (Numeric (Some c)) now cleanupTime c c Hon eq_refl Hlast).
  rewrite Z.ltb_irrefl, Z.sub_diag. cbn [Z.ltb Z.compare].
  destruct (history s) as [|p0 h0] eqn:Hh using rev_ind.
  - cbn [length Nat.ltb Nat.leb]. exists [ {| timestamp := now; amount := 0 |} ].
    split; [|split; [congruence|reflexivity]].
    unfold push. now rewrite Hh.
  - clear IHh0. rewrite alter_last_snoc.
    replace (0 <? length (h0 ++ [p0]))%nat with true
      by (symmetry; apply Nat.ltb_lt; rewrite length_app; cbn; lia).
    exists (h0 ++ [set_timestamp now p0]). split; [reflexivity|].
    split; [intros _|intros Habs; now destruct h0].
    rewrite !length_app, !map_app, last_snoc. cbn [length map amount set_timestamp].
    repeat split. intros i p Hi.
    destruct (decide (i = (length h0 + 1 - 1)%nat)) as [->|Hne].
    + replace (length h0 + 1 - 1)%nat with (length h0 + 0)%nat in * by lia.
      rewrite lookup_app_r in Hi |- * by lia.
      replace (length h0 + 0 - length h0)%nat with 0%nat in * by lia.
      cbn in *. congruence.
    + assert (i < length h0)%nat.
      { apply lookup_lt_Some in Hi. rewrite length_app in Hi. cbn in Hi. lia. }
      rewrite lookup_app_l in Hi |- * by lia. exact Hi.
Qed.

Lemma zero_delta_extends_last_sample_witness :
  let s := update (ether 100) 1000 1000 (new_RewardHistory 0) in
  initialized s = true /\
  lastAmount s = Wei (100 * 10 ^ 18) /\
  history s = [ {| timestamp := 1000; amount := 0 |} ] /\
  history (update (ether 100) 1500 1501 s) = [ {| timestamp := 1500; amount := 0 |} ] /\
  exists h',
    update (ether 100) 1500 1501 s = cleanup 1501 (set_history h' s) /\
    (history s <> [] ->
       length h' = length (history s) /\
       map amount h' = map amount (history s) /\
       (forall i p, history s !! i = Some p ->
          h' !! i = Some (if decide (i = length (history s) - 1)%nat
                          then set_timestamp 1500 p else p)) /\
       timestamp <$> last h' = Some 1500) /\
    (history s = [] -> h' = [ {| timestamp := 1500; amount := 0 |} ]).
Proof.
  intros s. do 4 (split; [reflexivity|]).
  apply (zero_delta_extends_last_sample s (100 * 10 ^ 18) 1500 1501); reflexivity.
Defined.

(** ** The claims about [getStats] *)

Lemma filter_in_window_idem now h :
  List.filter (in_window now) (List.filter (in_window now) h) = List.filter (in_window now) h.
Proof.
  induction h as [|p h IH]; [reflexivity|]. cbn.
  destruct (in_window now p) eqn:Hp; [cbn; rewrite Hp; now f_equal|exact IH].
Qed.

Lemma filter_in_window_warmup now : List.filter (in_window now) (warmup now) = warmup now.
Proof.
  unfold warmup, in_window, windowMs. cbn.
  repeat match goal with
         | |- context [?a <=? ?b] => replace (a <=? b) with true by (symmetry; apply Z.leb_le; lia)
         end.
  reflexivity.
Qed.

(** C2. On every state whose amounts are numbers [getStats] returns, and
    its window rate per minute is the sum of the deltas of the samples of
    the history inside the window, divided by the fixed 5: the dates of the
    samples play no part in the divisor.  The rate per hour is 60 times the
    rate per minute and the rate per day 24 times the rate per hour.  When
    the call reads one clock value, the samples inside the window are the
    whole history the call leaves. *)
Theorem window_rate_fixed_divisor (s : RewardHistory) (tc ti now : Z) :
  numeric s = true ->
  exists stats s',
    getStats tc ti now s = (Some stats, s') /\
    let retained := List.filter (in_window now) (history s') in
    perMinute (currentRate stats) = Z.quot (sum_amounts retained) 5 /\
    perHour (currentRate stats) = perMinute (currentRate stats) * 60 /\
    perDay (currentRate stats) = perHour (currentRate stats) * 24 /\
    (tc = now -> ti = now -> retained = history s').
Proof.
  intros Hnum. rewrite (getStats_numeric tc ti now s Hnum).
  eexists; eexists; split; [reflexivity|]. cbn zeta. cbn [currentRate perMinute perHour perDay].
  repeat split. intros -> ->.
  rewrite history_initialize, history_cleanup. cbn [initialized cleanup set_history].
  destruct (initialized s).
  - apply filter_in_window_idem.
  - now rewrite List.filter_app, filter_in_window_idem, filter_in_window_warmup.
Qed.

Lemma window_rate_fixed_divisor_witness :
  let s := run [ Update (Numeric (Some 0)) 0 0;
                 Update (Numeric (Some (10 ^ 14))) 60000 60000 ] (new_RewardHistory 0) in
  numeric s = true /\
  history s = [ {| timestamp := 0; amount := 0 |};
                {| timestamp := 60000; amount := 10 ^ 14 |} ] /\
  perMinute ∘ currentRate <$> fst (getStats 60000 60000 60000 s) = Some (2 * 10 ^ 13) /\
  exists stats s',
    getStats 60000 60000 60000 s = (Some stats, s') /\
    let retained := List.filter (in_window 60000) (history s') in
    perMinute (currentRate stats) = Z.quot (sum_amounts retained) 5 /\
    perHour (currentRate stats) = perMinute (currentRate stats) * 60 /\
    perDay (currentRate stats) = perHour (currentRate stats) * 24 /\
    (60000 = 60000 -> 60000 = 60000 -> retained = history s').
Proof.
  intros s. do 3 (split; [reflexivity|]).
  apply (window_rate_fixed_divisor s 60000 60000 60000). reflexivity.
Defined.

(** C8. On every state whose amounts are numbers [getStats] returns; its
    session total is the clamped difference of the last amount and the
    baseline, in wei.  When the session has lasted a positive number [d]
    of milliseconds, the session rate is the integer quotient of the
    session total times 60000 by [d], taken on the integers in wei: it is
    the largest integer [r] with [r * d <= total * 60000].  When [d] is
    not positive the session rate is 0. *)
Theorem session_rate_per_minute (s : RewardHistory) (tc ti now : Z) :
  numeric s = true ->
  exists stats,
    fst (getStats tc ti now s) = Some stats /\
    sessionTotal stats = session_total s /\
    let d := now - startTime s in
    (0 < d ->
       sessionPerMinute stats = Z.quot (sessionTotal stats * 60000) d /\
       sessionPerMinute stats * d <= sessionTotal stats * 60000
         < (sessionPerMinute stats + 1) * d) /\
    (d <= 0 -> sessionPerMinute stats = 0).
Proof.
  intros Hnum. rewrite (getStats_numeric tc ti now s Hnum). cbn [fst].
  eexists; split; [reflexivity|]. cbn [sessionTotal sessionPerMinute]. cbn zeta.
  split; [reflexivity|].
  assert (Hnonneg : 0 <= session_total s).
  { unfold session_total. destruct (initialAmount s); lia. }
  destruct (Z.ltb_spec 0 (now - startTime s)) as [Hpos|Hneg].
  - split; [intros _|lia]. split; [reflexivity|].
    rewrite Z.quot_div_nonneg by lia.
    pose proof (Z.mul_div_le (session_total s * 60000) (now - startTime s) Hpos).
    pose proof (Z.mul_succ_div_gt (session_total s * 60000) (now - startTime s) Hpos).
    lia.
  - split; [lia|reflexivity].
Qed.

Lemma session_rate_per_minute_witness :
  let s := run [ Update (Numeric (Some 0)) 0 0;
                 Update (Numeric (Some (10 ^ 18))) 1000 1000 ] (new_RewardHistory 0) in
  numeric s = true /\
  exists stats,
    fst (getStats 7000 7000 7000 s) = Some stats /\
    sessionTotal stats = 10 ^ 18 /\
    sessionPerMinute stats = 8571428571428571428 /\
    (0 < 7000 - startTime s ->
       sessionPerMinute stats = Z.quot (sessionTotal stats * 60000) (7000 - startTime s) /\
       sessionPerMinute stats * (7000 - startTime s) <= sessionTotal stats * 60000
         < (sessionPerMinute stats + 1) * (7000 - startTime s)).
Proof.
  intros s. split; [reflexivity|].
  destruct (session_rate_per_minute s 7000 7000 7000 eq_refl)
    as (stats & Hstats & Htotal & Hpos & _).
  exists stats. split; [exact Hstats|]. split; [exact Htotal|].
  split; [|exact Hpos].
  cbn in Hstats. injection Hstats as <-. reflexivity.
Defined.

Lemma Qmax_one_short (d : Z) : d <= 60000 -> Qmax 1 (Qmake d 60000) = 1%Q.
Proof.
  intros Hd. unfold Qmax, GenericMinMax.gmax, Qcompare. cbn [Qnum Qden].
  destruct (Z.compare_spec (1 * Z.pos 60000) (d * Z.pos 1)); try reflexivity. lia.
Qed.

Lemma Qmax_one_long (d : Z) : 60000 <= d -> (Qmax 1 (Qmake d 60000) == Qmake d 60000)%Q.
Proof.
  intros Hd. apply Q.max_r. unfold Qle. cbn [Qnum Qden]. lia.
Qed.

(** C9. The session duration [getStats] reports is the larger of 1 and the
    minutes between the session start and [now]: it is at least 1, it is 1
    for a session of one minute or less, and it is the elapsed minutes for
    a session of one minute or more.  In particular it is 1 for a
    [getStats] within a minute of the first [update] on an accumulator in
    the uninitialized state. *)
Theorem minimum_session_duration :
  (forall (s : RewardHistory) (tc ti now : Z),
     numeric s = true ->
     exists stats,
       fst (getStats tc ti now s) = Some stats /\
       let elapsed := Qmake (now - startTime s) 60000 in
       sessionDurationMinutes stats = Qmax 1 elapsed /\
       (1 <= sessionDurationMinutes stats)%Q /\
       (elapsed <= sessionDurationMinutes stats)%Q /\
       (now - startTime s <= 60000 -> sessionDurationMinutes stats = 1%Q) /\
       (60000 <= now - startTime s -> (sessionDurationMinutes stats == elapsed)%Q)) /\
  (forall (s : RewardHistory) (c : StringOrNumber) (t tc' tc ti now : Z),
     initialized s = false ->
     is_wei c = true ->
     now - t <= 60000 ->
     exists stats,
       fst (getStats tc ti now (update c t tc' s)) = Some stats /\
       sessionDurationMinutes stats = 1%Q).
Proof.
  split.
  - intros s tc ti now Hnum. rewrite (getStats_numeric tc ti now s Hnum). cbn [fst].
    eexists; split; [reflexivity|]. cbn zeta. cbn [sessionDurationMinutes].
    split; [reflexivity|]. split; [apply Q.le_max_l|]. split; [apply Q.le_max_r|].
    split; [apply Qmax_one_short|apply Qmax_one_long].
  - intros s c t tc' tc ti now Hoff Hc Hnear.
    rewrite (update_first s c t tc' Hoff).
    unfold is_wei in Hc. destruct (toWeiString c) as [w|] eqn:Hw; [|discriminate].
    rewrite getStats_numeric by reflexivity. cbn [fst].
    eexists; split; [reflexivity|]. cbn [sessionDurationMinutes startTime].
    now apply Qmax_one_short.
Qed.

Lemma minimum_session_duration_witness :
  let s := update (ether 100) 1000 1000 (new_RewardHistory 0) in
  (initialized (new_RewardHistory 0) = false /\
   is_wei (ether 100) = true /\
   1002 - 1000 <= 60000 /\
   exists stats,
     fst (getStats 1002 1002 1002 s) = Some stats /\ sessionDurationMinutes stats = 1%Q) /\
  (numeric s = true /\
   60000 <= 901000 - startTime s /\
   exists stats,
     fst (getStats 901000 901000 901000 s) = Some stats /\
     (sessionDurationMinutes stats == 15)%Q).
Proof.
  intros s. destruct minimum_session_duration as [Hgeneral Hfirst]. split.
  - do 2 (split; [reflexivity|]). split; [lia|].
    apply (Hfirst (new_RewardHistory 0) (ether 100) 1000 1000 1002 1002 1002);
      [reflexivity|reflexivity|lia].
  - split; [reflexivity|]. split; [cbn; lia|]. destruct (Hgeneral s 901000 901000 901000 eq_refl) as (stats & Hstats & _ & _ & _ & _ & Hlong).
    exists stats. split; [exact Hstats|].
    rewrite Hlong by (cbn; lia). reflexivity.
Defined.

(** ** Reading twice *)

Lemma getStats_result tc ti now s :
  fst (getStats tc ti now s) =
    (fun total =>
       stats_from now (startTime s) total
         (sum_amounts (List.filter (in_window now) (history (initialize ti (cleanup tc s))))))
    <$> sessionTotal_of s.
Proof.
  unfold getStats. rewrite getStats_sessionTotal_of.
  destruct (initialize_fields ti (cleanup tc s)) as (_ & _ & Hst). cbn in Hst.
  destruct (sessionTotal_of s) as [total|]; [|reflexivity].
  cbn. rewrite Hst, totalRewards_of_sum. reflexivity.
Qed.

Lemma filter_in_window_later t1 t2 h :
  t1 <= t2 ->
  List.filter (in_window t2) (List.filter (in_window t1) h) = List.filter (in_window t2) h.
Proof.
  intros Hle. induction h as [|p h IH]; [reflexivity|]. cbn.
  destruct (in_window t1 p) eqn:H1; cbn; [now rewrite IH|].
  rewrite IH. destruct (in_window t2 p) eqn:H2; [|reflexivity].
  unfold in_window in *. apply Z.leb_le in H2. apply Z.leb_gt in H1. lia.
Qed.

(** C10, as stated, fails: a second [getStats] one second after the first,
    with no call in between, reports another session rate, and one six
    minutes after the first reports another session duration and other
    window rates too. *)
Lemma idempotent_reads_counterexample :
  (sessionPerMinute <$> fst (getStats 2000 2000 2000 two_polls) = Some (3 * 10 ^ 19) /\
   sessionPerMinute
     <$> fst (getStats 3000 3000 3000 (snd (getStats 2000 2000 2000 two_polls)))
     = Some (2 * 10 ^ 19)) /\
  (perMinute ∘ currentRate <$> fst (getStats 2000 2000 2000 two_polls) = Some (2 * 10 ^ 17) /\
   perMinute ∘ currentRate
     <$> fst (getStats 362000 362000 362000 (snd (getStats 2000 2000 2000 two_polls)))
     = Some 0) /\
  fst (getStats 3000 3000 3000 (snd (getStats 2000 2000 2000 two_polls)))
    <> fst (getStats 2000 2000 2000 two_polls).
Proof.
  split; [split; reflexivity|]. split; [split; reflexivity|].
  intros Heq. vm_compute in Heq. discriminate Heq.
Qed.

(** C10, amended.  Two consecutive [getStats] calls with nothing in
    between return the same session total whatever the clock reads, and
    return the same result in every field when the second call reads the
    same [now] as the first and prunes at a clock value that is not later
    (as it does when the clock stands still between the two calls). *)
Theorem repeated_read (s : RewardHistory) (tc ti now tc' ti' now' : Z) :
  let first := getStats tc ti now s in
  let second := getStats tc' ti' now' (snd first) in
  sessionTotal <$> fst second = sessionTotal <$> fst first /\
  (now' = now -> tc' <= now -> fst second = fst first).
Proof.
  cbn zeta. rewrite getStats_state, !getStats_result, getStats_sessionTotal_of.
  destruct (initialize_fields ti (cleanup tc s)) as (_ & _ & Hst). rewrite Hst.
  split; [now destruct (sessionTotal_of s)|].
  intros -> Hle.
  set (s1 := initialize ti (cleanup tc s)).
  assert (Hon : initialized (cleanup tc' s1) = true) by apply initialized_initialize.
  rewrite (initialize_on _ ti' Hon), history_cleanup, filter_in_window_later by exact Hle.
  reflexivity.
Qed.

Lemma repeated_read_witness :
  sessionTotal
    <$> fst (getStats 3000 3000 3000 (snd (getStats 2000 2000 2000 two_polls)))
    = sessionTotal <$> fst (getStats 2000 2000 2000 two_polls) /\
  (2000 <= 2000 /\
   fst (getStats 2000 2000 2000 (snd (getStats 1999 2000 2000 two_polls)))
     = fst (getStats 1999 2000 2000 two_polls)).
Proof.
  split.
  - apply (repeated_read two_polls 2000 2000 2000 3000 3000 3000).
  - split; [lia|].
    apply (repeated_read two_polls 1999 2000 2000 2000 2000 2000); [reflexivity|lia].
Defined.

(** ** The invariant of the history *)

Section Invariant.
Implicit Types (h : list RewardPoint) (p : RewardPoint) (s : RewardHistory).

Lemma Forall_filter_bool (P : RewardPoint -> Prop) (f : RewardPoint -> bool) h :
  Forall P h -> Forall P (List.filter f h).
Proof.
  induction 1 as [|p h Hp Hh IH]; cbn; [constructor|].
  destruct (f p); [constructor|]; assumption.
Qed.

Lemma Forall_in_window now h :
  Forall (fun p => now - windowMs <= timestamp p) (List.filter (in_window now) h).
Proof.
  induction h as [|p h IH]; cbn; [constructor|].
  destruct (in_window now p) eqn:Hp; [constructor|]; try assumption.
  unfold in_window in Hp. now apply Z.leb_le in Hp.
Qed.

Lemma sorted_filter (f : RewardPoint -> bool) h :
  StronglySorted le_timestamp h -> StronglySorted le_timestamp (List.filter f h).
Proof.
  induction 1 as [|p h Hh IH Hp]; cbn; [constructor|].
  destruct (f p); [constructor|]; try assumption.
  now apply Forall_filter_bool.
Qed.

Lemma sorted_snoc t h p :
  StronglySorted le_timestamp h ->
  Forall (fun q => timestamp q <= t) h ->
  t <= timestamp p ->
  StronglySorted le_timestamp (h ++ [p]).
Proof.
  intros Hs Hpast Hle. apply StronglySorted_app. split; [|split; [exact Hs|]].
  - intros q r Hq Hr. apply list_elem_of_singleton in Hr as ->.
    rewrite Forall_forall in Hpast. specialize (Hpast q Hq). unfold le_timestamp. lia.
  - repeat constructor.
Qed.

Lemma past_snoc t t' h p :
  Forall (fun q => timestamp q <= t) h -> t <= t' -> timestamp p <= t' ->
  Forall (fun q => timestamp q <= t') (h ++ [p]).
Proof.
  intros Hpast Hle Hp. apply Forall_app. split; [|now repeat constructor].
  eapply Forall_impl; [exact Hpast|]. cbn. intros; lia.
Qed.

Lemma sorted_warmup now : StronglySorted le_timestamp (warmup now).
Proof. unfold warmup, le_timestamp. cbn. repeat constructor; cbn; lia. Qed.

Lemma past_warmup now : Forall (fun q => timestamp q <= now) (warmup now).
Proof. unfold warmup. cbn. repeat constructor; cbn; lia. Qed.

Lemma recent_warmup t now :
  t <= now -> Forall (fun p => t - windowMs <= timestamp p) (warmup now).
Proof. intros Hle. unfold warmup, windowMs. cbn. repeat constructor; cbn; lia. Qed.

Lemma invariant_mono t t' s : t <= t' -> invariant t s -> invariant t' s.
Proof.
  intros Hle [Hn Hs Hp Ho]. split; try assumption.
  eapply Forall_impl; [exact Hp|]. cbn. intros; lia.
Qed.

Lemma invariant_new t t0 : invariant t (new_RewardHistory t0).
Proof. split; cbn; auto; constructor. Qed.

Lemma invariant_cleanup t now s : invariant t s -> invariant t (cleanup now s).
Proof.
  intros [Hn Hs Hp Ho]. split; cbn.
  - exact Hn.
  - now apply sorted_filter.
  - now apply Forall_filter_bool.
  - intros Hoff. now rewrite (Ho Hoff).
Qed.

Lemma invariant_initialize t now s :
  t <= now -> invariant t s -> invariant now (initialize now s).
Proof.
  intros Hle Hinv. destruct (initialized s) eqn:Hi.
  - rewrite initialize_on by exact Hi. now apply (invariant_mono t).
  - destruct Hinv as [Hn Hs Hp Ho]. rewrite initialize_off by exact Hi.
    rewrite (Ho Hi). split; cbn.
    + exact Hn.
    + apply sorted_warmup.
    + apply past_warmup.
    + discriminate.
Qed.

(** [update] keeps the invariant and leaves no sample older than the
    window that ends at the call. *)
Lemma invariant_update t a currentTime cleanupTime s :
  invariant t s -> is_wei a = true -> t <= currentTime -> currentTime <= cleanupTime ->
  invariant cleanupTime (update a currentTime cleanupTime s) /\
  Forall (fun p => currentTime - windowMs <= timestamp p)
    (history (update a currentTime cleanupTime s)).
Proof.
  intros Hinv Ha Hle Hle'. pose proof Hinv as [Hn Hs Hp Ho].
  unfold is_wei in Ha. destruct (toWeiString a) as [w|] eqn:Hw; [|discriminate].
  assert (Hwindow : 0 <= windowMs) by (unfold windowMs; lia).
  assert (Hrecent : forall s', invariant cleanupTime s' ->
            invariant cleanupTime (cleanup cleanupTime s') /\
            Forall (fun p => currentTime - windowMs <= timestamp p)
              (history (cleanup cleanupTime s'))).
  { intros s' Hs'. split; [now apply invariant_cleanup|].
    rewrite history_cleanup. eapply Forall_impl; [apply Forall_in_window|].
    cbn. intros; lia. }
  destruct (initialized s) eqn:Hi.
  - unfold numeric in Hn. destruct (lastAmount s) as [l|] eqn:Hl; [|discriminate].
    rewrite (update_later s a currentTime cleanupTime w l Hi Hw Hl).
    destruct (Z.ltb_spec w l).
    { split; [split; cbn|cbn]; try reflexivity; try discriminate;
        repeat constructor; cbn; lia. }
    destruct (Z.ltb_spec 0 (w - l)).
    { apply Hrecent. split; cbn.
      - unfold numeric; cbn. now destruct (initialAmount s) as [[?|?]|].
      - now apply (sorted_snoc t).
      - apply (past_snoc t); cbn; [assumption|lia|lia].
      - congruence. }
    destruct (history s) as [|p0 h0 _] eqn:Hh using rev_ind.
    + cbn [length Nat.ltb Nat.leb]. apply Hrecent. unfold push. rewrite Hh. split; cbn.
      * unfold numeric; cbn. rewrite Hl. now destruct (initialAmount s) as [[?|?]|].
      * repeat constructor.
      * repeat constructor; cbn; lia.
      * congruence.
    + rewrite alter_last_snoc.
      replace (0 <? length (h0 ++ [p0]))%nat with true
        by (symmetry; apply Nat.ltb_lt; rewrite length_app; cbn; lia).
      apply Hrecent. apply StronglySorted_app_1_l in Hs.
      apply Forall_app in Hp as [Hp _]. split; cbn.
      * unfold numeric; cbn. rewrite Hl. now destruct (initialAmount s) as [[?|?]|].
      * now apply (sorted_snoc t).
      * apply (past_snoc t); cbn; [assumption|lia|lia].
      * congruence.
  - rewrite (update_first s a currentTime cleanupTime Hi), (Ho eq_refl), Hw. cbn.
    split; [split; cbn|]; try reflexivity; try discriminate;
      repeat constructor; cbn; lia.
Qed.

(** [getStats] keeps the invariant and leaves no sample older than the
    window that ends at its first clock read. *)
Lemma invariant_getStats t tc ti now s :
  invariant t s -> t <= tc -> tc <= ti -> ti <= now ->
  invariant now (snd (getStats tc ti now s)) /\
  Forall (fun p => tc - windowMs <= timestamp p) (history (snd (getStats tc ti now s))).
Proof.
  intros Hinv Hle1 Hle2 Hle3. rewrite getStats_state. split.
  - apply (invariant_mono ti); [exact Hle3|].
    apply (invariant_initialize tc); [exact Hle2|].
    apply invariant_cleanup. now apply (invariant_mono t).
  - rewrite history_initialize, history_cleanup. cbn [initialized cleanup set_history].
    destruct (initialized s); [apply Forall_in_window|].
    apply Forall_app. split; [apply Forall_in_window|now apply recent_warmup].
Qed.

Lemma invariant_reset t now s : invariant t (reset now s).
Proof. apply invariant_new. Qed.

Lemma invariant_setInitialAmount t a now s :
  invariant t s -> is_wei a = true -> invariant t (setInitialAmount a now s).
Proof.
  intros [Hn Hs Hp Ho] Ha. unfold is_wei in Ha.
  destruct (toWeiString a) as [w|] eqn:Hw; [|discriminate].
  split; cbn; try assumption; [|discriminate].
  unfold numeric; cbn. now rewrite Hw.
Qed.
End Invariant.

Section Runs.
Implicit Types (c : call) (cs : list call) (s : RewardHistory) (rest : list Z).

Lemma clock_cons c cs : clock (c :: cs) = readings c ++ clock cs.
Proof. reflexivity. Qed.

Lemma clock_app cs1 cs2 : clock (cs1 ++ cs2) = clock cs1 ++ clock cs2.
Proof. unfold clock. now rewrite map_app, concat_app. Qed.

Lemma sorted_clock_cons (t u : Z) rest :
  StronglySorted Z.le (t :: u :: rest) -> t <= u /\ StronglySorted Z.le (u :: rest).
Proof.
  intros Hs. apply StronglySorted_cons in Hs as [Hall Hs].
  apply Forall_cons in Hall as [Hle _]. now split.
Qed.

Lemma invariant_step t c s rest :
  invariant t s -> well_formed c = true ->
  StronglySorted Z.le (t :: readings c ++ rest) ->
  exists t',
    invariant t' (step c s) /\
    StronglySorted Z.le (t' :: rest) /\
    (prunes c = true ->
       Forall (fun p => called_at c - windowMs <= timestamp p) (history (step c s))).
Proof.
  intros Hinv Hwf Hclock. destruct c as [a tcur tclean|tc ti now|now|a now]; cbn in *.
  - apply sorted_clock_cons in Hclock as [H1 Hclock].
    apply sorted_clock_cons in Hclock as [H2 Hclock].
    destruct (invariant_update t a tcur tclean s Hinv Hwf H1 H2) as [Hinv' Hrecent].
    exists tclean. auto.
  - apply sorted_clock_cons in Hclock as [H1 Hclock].
    apply sorted_clock_cons in Hclock as [H2 Hclock].
    apply sorted_clock_cons in Hclock as [H3 Hclock].
    destruct (invariant_getStats t tc ti now s Hinv H1 H2 H3) as [Hinv' Hrecent].
    exists now. auto.
  - apply sorted_clock_cons in Hclock as [H1 Hclock].
    exists now. split; [apply invariant_reset|]. split; [exact Hclock|discriminate].
  - apply sorted_clock_cons in Hclock as [H1 Hclock].
    exists now. split; [|split; [exact Hclock|discriminate]].
    apply (invariant_mono t); [exact H1|]. now apply invariant_setInitialAmount.
Qed.

Lemma invariant_run cs : forall t s rest,
  invariant t s -> forallb well_formed cs = true ->
  StronglySorted Z.le (t :: clock cs ++ rest) ->
  exists t', invariant t' (run cs s) /\ StronglySorted Z.le (t' :: rest).
Proof.
  induction cs as [|c cs IH]; intros t s rest Hinv Hwf Hclock; [now exists t|].
  cbn [forallb] in Hwf. apply andb_prop in Hwf as [Hc Hcs].
  rewrite clock_cons, <- app_assoc in Hclock.
  destruct (invariant_step t c s _ Hinv Hc Hclock) as (t1 & Hinv1 & Hclock1 & _).
  rewrite run_cons. exact (IH t1 _ rest Hinv1 Hcs Hclock1).
Qed.
End Runs.

Lemma filter_in_window_comm t1 t2 h :
  List.filter (in_window t1) (List.filter (in_window t2) h)
  = List.filter (in_window t2) (List.filter (in_window t1) h).
Proof.
  induction h as [|p h IH]; [reflexivity|]. cbn.
  destruct (in_window t2 p) eqn:H2, (in_window t1 p) eqn:H1; cbn;
    rewrite ?H1, ?H2, IH; reflexivity.
Qed.

(** The numbers of [getStats] depend on the history only through the
    samples inside the window that ends at [now]. *)
Lemma getStats_in_window tc ti now s h :
  List.filter (in_window now) h = List.filter (in_window now) (history s) ->
  fst (getStats tc ti now (set_history h s)) = fst (getStats tc ti now s).
Proof.
  intros Hsame. rewrite !getStats_result. cbn [startTime set_history].
  rewrite (sessionTotal_of_frame s (set_history h s)) by reflexivity.
  rewrite !history_initialize, !history_cleanup. cbn [initialized cleanup set_history history].
  assert (Hprune : List.filter (in_window now) (List.filter (in_window tc) h)
                   = List.filter (in_window now) (List.filter (in_window tc) (history s))).
  { now rewrite !(filter_in_window_comm now), Hsame. }
  destruct (initialized s); [now rewrite Hprune|].
  now rewrite !List.filter_app, Hprune.
Qed.

(** C6. Start from a fresh accumulator and make any calls with arguments
    that are amounts, on a clock that does not run backwards.  After every
    [update] and every [getStats] of the run, no sample of the history is
    older than the window that ends at the time of the call, and the
    history is sorted by date.  And whatever the state, the numbers of a
    [getStats] at [now] are those of the samples not older than
    [now - windowMs]: histories that differ in older samples only give the
    same result, window rate included. *)
Theorem window_pruned_and_sorted (t0 : Z) (cs : list call) (c : call) :
  forallb well_formed (cs ++ [c]) = true ->
  Sorted Z.le (clock (cs ++ [c])) ->
  prunes c = true ->
  let s' := step c (run cs (new_RewardHistory t0)) in
  Forall (fun p => called_at c - windowMs <= timestamp p) (history s') /\
  Sorted le_timestamp (history s') /\
  (forall s tc ti now h,
     List.filter (in_window now) h = List.filter (in_window now) (history s) ->
     fst (getStats tc ti now (set_history h s)) = fst (getStats tc ti now s)).
Proof.
  intros Hwf Hclock Hprunes s'.
  assert (Hstep : exists t, invariant t s' /\
            Forall (fun p => called_at c - windowMs <= timestamp p) (history s')).
  { rewrite forallb_app in Hwf. apply andb_prop in Hwf as [Hcs Hc].
    cbn in Hc. rewrite andb_true_r in Hc.
    apply Sorted_StronglySorted in Hclock; [|intros ? ? ?; lia].
    rewrite clock_app in Hclock. cbn [clock map concat] in Hclock.
    destruct (clock cs ++ readings c ++ []) as [|t1 l] eqn:Hl.
    { apply app_eq_nil in Hl as [_ Hl]. destruct c; discriminate Hl. }
    assert (Hclock' : StronglySorted Z.le (t1 :: clock cs ++ readings c ++ [])).
    { rewrite Hl. constructor; [exact Hclock|].
      constructor; [lia|]. now apply StronglySorted_cons in Hclock as [Hall _]. }
    destruct (invariant_run cs t1 _ _ (invariant_new t1 t0) Hcs Hclock')
      as (t2 & Hinv2 & Hclock2).
    destruct (invariant_step t2 c _ [] Hinv2 Hc Hclock2) as (t3 & Hinv3 & _ & Hrecent).
    exists t3. split; [exact Hinv3|now apply Hrecent]. }
  destruct Hstep as (t & Hinv & Hrecent).
  split; [exact Hrecent|]. split.
  - apply StronglySorted_Sorted, (inv_sorted _ _ Hinv).
  - intros s tc ti now h. apply getStats_in_window.
Qed.

Lemma run_polls_no_baseline cs : forall lo s,
  initialized s = true -> lastAmount s = Wei lo -> initialAmount s = None ->
  polls_from lo cs = true ->
  initialized (run cs s) = true /\
  initialAmount (run cs s) = None /\ numeric (run cs s) = true.
Proof.
  induction cs as [|c cs IH]; intros lo s Hi Hl Hb Hcs.
  { change (run [] s) with s. split; [exact Hi|]. split; [exact Hb|].
    unfold numeric. now rewrite Hl, Hb. }
  rewrite run_cons. destruct c as [[[w|]|] t tc|tc ti now| |]; try discriminate Hcs.
  - cbn [polls_from] in Hcs. apply andb_prop in Hcs as [Hle Hcs]. apply Z.leb_le in Hle.
    destruct (update_nondecreasing s w lo t tc Hi Hl Hle) as (Hi' & Hl' & Hb').
    apply (IH w); cbn [step]; try assumption. now rewrite Hb'.
  - cbn [polls_from] in Hcs. cbn [step]. rewrite getStats_state.
    destruct (initialize_fields ti (cleanup tc s)) as (Hl' & Hb' & _).
    apply (IH lo); try assumption.
    + apply initialized_initialize.
    + now rewrite Hl'.
    + now rewrite Hb'.
Qed.

(** C5. A [getStats] on a fresh accumulator, before any [update] or
    [setInitialAmount], seeds the five warm-up samples and turns the flag
    on, and sets no baseline.  An [update(c)] with [c > 0] that follows is
    taken as a later call against a last amount of 0: it appends [c] as a
    delta of the window.  Through every run of [getStats] and [update]
    calls whose cumulative values do not decrease, the baseline stays
    unset and [getStats] reports a session total of 0. *)
Theorem read_before_first_update (t0 tc ti now : Z) :
  let s1 := snd (getStats tc ti now (new_RewardHistory t0)) in
  s1 = {| history := warmup ti;
          lastAmount := Wei 0;
          initialAmount := None;
          startTime := t0;
          initialized := true |} /\
  (forall c t tc',
     0 < c ->
     update (Numeric (Some c)) t tc' s1 =
       cleanup tc' (set_lastAmount (Wei c) (push {| timestamp := t; amount := c |} s1))) /\
  (forall cs tc' ti' now',
     polls_from 0 cs = true ->
     initialized (run cs s1) = true /\
     initialAmount (run cs s1) = None /\
     exists stats,
       fst (getStats tc' ti' now' (run cs s1)) = Some stats /\ sessionTotal stats = 0).
Proof.
  cbn zeta.
  set (s1 := {| history := warmup ti; lastAmount := Wei 0; initialAmount := None;
                startTime := t0; initialized := true |}).
  assert (Hs1 : snd (getStats tc ti now (new_RewardHistory t0)) = s1).
  { rewrite getStats_state, initialize_off by reflexivity. reflexivity. }
  rewrite Hs1.
  split; [reflexivity|]. split.
  - intros c t tc' Hc.
    rewrite (update_later s1 (Numeric (Some c)) t tc' c 0 eq_refl eq_refl eq_refl).
    rewrite Z.sub_0_r.
    destruct (Z.ltb_spec c 0); [lia|]. destruct (Z.ltb_spec 0 c); [reflexivity|lia].
  - intros cs tc' ti' now' Hcs.
    destruct (run_polls_no_baseline cs 0 s1 eq_refl eq_refl eq_refl Hcs) as (Hi & Hb & Hnum).
    split; [exact Hi|]. split; [exact Hb|]. rewrite getStats_numeric by exact Hnum. cbn [fst].
    eexists; split; [reflexivity|]. cbn [sessionTotal]. unfold session_total. now rewrite Hb.
Qed.

Lemma read_before_first_update_witness :
  let s1 := snd (getStats 1000 1000 1000 (new_RewardHistory 0)) in
  let cs := [ Update (ether 5) 31000 31000;
              GetStats 31001 31001 31001;
              Update (ether 7) 61000 61000 ] in
  (0 < 5 * 10 ^ 18 /\
   history (update (ether 5) 31000 31000 s1)
     = warmup 1000 ++ [ {| timestamp := 31000; amount := 5 * 10 ^ 18 |} ]) /\
  (polls_from 0 cs = true /\
   lastAmount (run cs s1) = Wei (7 * 10 ^ 18) /\
   initialized (run cs s1) = true /\
   initialAmount (run cs s1) = None /\
   exists stats,
     fst (getStats 61001 61001 61001 (run cs s1)) = Some stats /\ sessionTotal stats = 0).
Proof.
  intros s1 cs.
  destruct (read_before_first_update 0 1000 1000 1000) as (Hs1 & Hfirst & Hrun).
  split; [split; [lia|]|split; [reflexivity|split; [reflexivity|]]].
  - unfold s1, ether. rewrite (Hfirst (5 * 10 ^ 18) 31000 31000) by lia. reflexivity.
  - apply (Hrun cs 61001 61001 61001). reflexivity.
Defined.

Lemma window_pruned_and_sorted_witness :
  let cs := [ Update (ether 1) 0 0;
              Update (ether 2) 60000 60000;
              GetStats 60001 60001 60002;
              Update (ether 2) 330000 330001 ] in
  let c := GetStats 361000 361000 361000 in
  forallb well_formed (cs ++ [c]) = true /\
  Sorted Z.le (clock (cs ++ [c])) /\
  prunes c = true /\
  history (run cs (new_RewardHistory 0))
    = [ {| timestamp := 330000; amount := 10 ^ 18 |} ] /\
  history (step c (run cs (new_RewardHistory 0)))
    = [ {| timestamp := 330000; amount := 10 ^ 18 |} ] /\
  Forall (fun p => 361000 - windowMs <= timestamp p)
    (history (step c (run cs (new_RewardHistory 0)))) /\
  Sorted le_timestamp (history (step c (run cs (new_RewardHistory 0)))).
Proof.
  intros cs c.
  assert (Hclock : Sorted Z.le (clock (cs ++ [c]))).
  { cbn. repeat constructor; lia. }
  split; [reflexivity|]. split; [exact Hclock|]. split; [reflexivity|].
  split; [reflexivity|]. split; [reflexivity|].
  destruct (window_pruned_and_sorted 0 cs c eq_refl Hclock eq_refl) as (Hrecent & Hsorted & _).
  split; [exact Hrecent|exact Hsorted].
Defined.

(** ** The amounts along every run *)

Lemma nonneg_filter (f : RewardPoint -> bool) h :
  Forall (fun p => 0 <= amount p) h -> Forall (fun p => 0 <= amount p) (List.filter f h).
Proof. apply Forall_filter_bool. Qed.

Lemma nonneg_alter t i h :
  Forall (fun p => 0 <= amount p) h ->
  Forall (fun p => 0 <= amount p) (alter (set_timestamp t) i h).
Proof.
  intros Hh. revert i. induction Hh as [|p h Hp Hh IH]; intros [|i]; cbn; constructor; auto.
Qed.

Lemma sum_amounts_alter t i h :
  sum_amounts (alter (set_timestamp t) i h) = sum_amounts h.
Proof.
  revert i. induction h as [|p h IH]; intros [|i]; cbn; try reflexivity.
  unfold sum_amounts in *. cbn. now rewrite IH.
Qed.

Lemma sum_amounts_snoc h p : sum_amounts (h ++ [p]) = sum_amounts h + amount p.
Proof.
  unfold sum_amounts. induction h as [|q h IH]; cbn; [lia|]. rewrite IH. lia.
Qed.

Lemma sum_amounts_filter_le (f : RewardPoint -> bool) h :
  Forall (fun p => 0 <= amount p) h ->
  0 <= sum_amounts (List.filter f h) <= sum_amounts h.
Proof.
  unfold sum_amounts. induction 1 as [|p h Hp Hh IH]; cbn; [lia|].
  destruct (f p); cbn; lia.
Qed.

Lemma nonneg_warmup now : Forall (fun p => 0 <= amount p) (warmup now).
Proof. unfold warmup. cbn. repeat constructor; cbn; lia. Qed.

Lemma amounts_step c s :
  baseline_le_last s -> nonneg_deltas s -> well_formed c = true ->
  baseline_le_last (step c s) /\ nonneg_deltas (step c s).
Proof.
  unfold baseline_le_last, nonneg_deltas. intros Hb Hn Hwf.
  destruct c as [a t tc|tc ti now|now|a now]; cbn [step well_formed] in *.
  - unfold is_wei in Hwf. destruct (toWeiString a) as [w|] eqn:Hw; [|discriminate].
    destruct (initialized s) eqn:Hi.
    + destruct (lastAmount s) as [l|] eqn:Hl; [|now destruct (initialAmount s) as [[?|?]|]].
      rewrite (update_later s a t tc w l Hi Hw Hl).
      destruct (Z.ltb_spec w l).
      { cbn. split; [lia|repeat constructor; cbn; lia]. }
      destruct (Z.ltb_spec 0 (w - l)).
      { cbn. split.
        - destruct (initialAmount s) as [[i|]|]; auto; lia.
        - apply nonneg_filter, Forall_app. split; [exact Hn|]. repeat constructor; cbn; lia. }
      destruct (0 <? length (history s))%nat; cbn; rewrite Hl; (split; [exact Hb|]).
      * apply nonneg_filter, nonneg_alter, Hn.
      * apply nonneg_filter, Forall_app. split; [exact Hn|]. repeat constructor; cbn; lia.
    + rewrite (update_first s a t tc Hi), Hw. cbn. split; [lia|].
      apply Forall_app. split; [exact Hn|]. repeat constructor; cbn; lia.
  - rewrite getStats_state.
    destruct (initialize_fields ti (cleanup tc s)) as (-> & -> & _). split; [exact Hb|].
    rewrite history_initialize, history_cleanup. cbn [initialized cleanup set_history].
    destruct (initialized s); [now apply nonneg_filter|].
    apply Forall_app. split; [now apply nonneg_filter|apply nonneg_warmup].
  - cbn. split; [exact I|constructor].
  - unfold is_wei in Hwf. destruct (toWeiString a) as [w|] eqn:Hw; [|discriminate].
    cbn. rewrite Hw. split; [lia|exact Hn].
Qed.

Lemma amounts_run cs : forall s,
  baseline_le_last s -> nonneg_deltas s -> forallb well_formed cs = true ->
  baseline_le_last (run cs s) /\ nonneg_deltas (run cs s).
Proof.
  induction cs as [|c cs IH]; intros s Hb Hn Hwf; [now split|].
  cbn [forallb] in Hwf. apply andb_prop in Hwf as [Hc Hcs].
  destruct (amounts_step c s Hb Hn Hc) as [Hb' Hn'].
  rewrite run_cons. now apply IH.
Qed.

Lemma baseline_le_last_numeric s : baseline_le_last s -> numeric s = true.
Proof.
  unfold baseline_le_last, numeric.
  destruct (initialAmount s) as [[?|?]|], (lastAmount s); tauto.
Qed.

(** X1. In every state reached from a fresh accumulator through calls
    whose arguments are amounts, the last amount is not below the
    baseline.  So the clamp of [getStats] never acts there: the session
    total it returns is the last amount minus the baseline, and zero
    without a baseline. *)
Theorem session_total_is_exact (t0 : Z) (cs : list call) (tc ti now : Z) :
  forallb well_formed cs = true ->
  let s := run cs (new_RewardHistory t0) in
  baseline_le_last s /\
  exists stats,
    fst (getStats tc ti now s) = Some stats /\
    sessionTotal stats =
      match initialAmount s with
      | Some initial => wei_of (lastAmount s) - wei_of initial
      | None => 0
      end.
Proof.
  intros Hwf s.
  destruct (amounts_run cs (new_RewardHistory t0) I (List.Forall_nil _) Hwf) as [Hb _].
  fold s in Hb. split; [exact Hb|].
  rewrite (getStats_numeric tc ti now s (baseline_le_last_numeric s Hb)). cbn [fst].
  eexists; split; [reflexivity|]. cbn [sessionTotal]. unfold session_total.
  unfold baseline_le_last in Hb.
  destruct (initialAmount s) as [[i|]|], (lastAmount s) as [l|]; cbn; try tauto; lia.
Qed.

Lemma session_total_is_exact_witness :
  let cs := [ Update (ether 5) 0 0; GetStats 10 10 10; Update (ether 8) 30000 30000;
              Update (ether 2) 60000 60000; SetInitialAmount (ether 1) 90000;
              Update (ether 4) 120000 120000 ] in
  forallb well_formed cs = true /\
  lastAmount (run cs (new_RewardHistory 0)) = Wei (4 * 10 ^ 18) /\
  initialAmount (run cs (new_RewardHistory 0)) = Some (Wei (1 * 10 ^ 18)) /\
  exists stats,
    fst (getStats 120001 120001 120001 (run cs (new_RewardHistory 0))) = Some stats /\
    sessionTotal stats = 3 * 10 ^ 18.
Proof.
  intros cs. do 3 (split; [reflexivity|]).
  destruct (session_total_is_exact 0 cs 120001 120001 120001 eq_refl) as (_ & stats & Hs & Ht).
  exists stats. split; [exact Hs|]. rewrite Ht. reflexivity.
Defined.

(** X2. [getStats] never reports a negative number on such a state: the
    deltas of the history are not negative, and neither are the session
    total, the session rate and the three window rates. *)
Theorem stats_never_negative (t0 : Z) (cs : list call) (tc ti now : Z) :
  forallb well_formed cs = true ->
  let s := run cs (new_RewardHistory t0) in
  Forall (fun p => 0 <= amount p) (history s) /\
  exists stats,
    fst (getStats tc ti now s) = Some stats /\
    0 <= sessionTotal stats /\
    0 <= sessionPerMinute stats /\
    0 <= perMinute (currentRate stats) /\
    perMinute (currentRate stats) <= perHour (currentRate stats) /\
    perHour (currentRate stats) <= perDay (currentRate stats).
Proof.
  intros Hwf s.
  destruct (amounts_run cs (new_RewardHistory t0) I (List.Forall_nil _) Hwf) as [Hb Hn].
  fold s in Hb, Hn. split; [exact Hn|].
  destruct (amounts_step (GetStats tc ti now) s Hb Hn eq_refl) as [_ Hn'].
  cbn [step] in Hn'. rewrite getStats_state in Hn'.
  rewrite (getStats_numeric tc ti now s (baseline_le_last_numeric s Hb)). cbn [fst].
  eexists; split; [reflexivity|].
  cbn [sessionTotal sessionPerMinute currentRate perMinute perHour perDay].
  assert (Htotal : 0 <= session_total s).
  { unfold session_total. destruct (initialAmount s); lia. }
  pose proof (sum_amounts_filter_le (in_window now) _ Hn') as [Hsum _].
  assert (Hrate : 0 <= Z.quot (sum_amounts
            (List.filter (in_window now) (history (initialize ti (cleanup tc s))))) 5).
  { apply Z.quot_pos; lia. }
  split; [exact Htotal|]. split; [|lia].
  destruct (Z.ltb_spec 0 (now - startTime s)); [|lia].
  apply Z.quot_pos; lia.
Qed.

Lemma stats_never_negative_witness :
  let cs := [ GetStats 0 0 0; Update (ether 5) 30000 30000; Update (ether 2) 60000 60000;
              Update (Numeric None) 90000 90000 ] in
  forallb well_formed cs = true /\
  Forall (fun p => 0 <= amount p) (history (run cs (new_RewardHistory 0))) /\
  exists stats,
    fst (getStats 90001 90001 90001 (run cs (new_RewardHistory 0))) = Some stats /\
    0 <= sessionTotal stats /\
    0 <= sessionPerMinute stats /\
    0 <= perMinute (currentRate stats) /\
    perMinute (currentRate stats) <= perHour (currentRate stats) /\
    perHour (currentRate stats) <= perDay (currentRate stats).
Proof.
  intros cs. split; [reflexivity|].
  apply (stats_never_negative 0 cs 90001 90001 90001). reflexivity.
Defined.

(** ** Sessions that an [update] or [setInitialAmount] starts *)

Lemma polls_cons c cs :
  polls (c :: cs) = true -> prunes c = true /\ well_formed c = true /\ polls cs = true.
Proof.
  unfold polls. cbn [forallb]. intros H. apply andb_prop in H as [Hc Hcs].
  apply andb_prop in Hc as [Hp Hw]. auto.
Qed.

Lemma tracking_numeric s : tracking s -> numeric s = true.
Proof.
  intros [_ (i & l & Hi & Hl & _) _]. unfold numeric. now rewrite Hi, Hl.
Qed.

Lemma tracking_step c s :
  tracking s -> prunes c = true -> well_formed c = true -> tracking (step c s).
Proof.
  intros [Hon (i & l & Hi & Hl & Hsum) Hn] Hp Hwf. unfold nonneg_deltas in Hn.
  destruct c as [a t tc|tc ti now|now|a now]; try discriminate Hp; cbn [step well_formed] in *.
  - unfold is_wei in Hwf. destruct (toWeiString a) as [w|] eqn:Hw; [|discriminate].
    rewrite (update_later s a t tc w l Hon Hw Hl).
    destruct (Z.ltb_spec w l).
    { split; cbn; [reflexivity| |repeat constructor; cbn; lia].
      exists w, w. repeat split. unfold sum_amounts; cbn. lia. }
    assert (Hcleanup : forall h last,
              Forall (fun p => 0 <= amount p) h -> sum_amounts h <= last - i ->
              tracking (cleanup tc (set_lastAmount (Wei last) (set_history h s)))).
    { intros h last Hh Hle. split; [exact Hon| |now apply nonneg_filter].
      exists i, last. split; [exact Hi|]. split; [reflexivity|].
      rewrite history_cleanup. cbn [history set_lastAmount set_history].
      pose proof (sum_amounts_filter_le (in_window tc) h Hh). lia. }
    destruct (Z.ltb_spec 0 (w - l)).
    { apply (Hcleanup (history s ++ [ {| timestamp := t; amount := w - l |} ]) w).
      - apply Forall_app. split; [exact Hn|]. repeat constructor; cbn; lia.
      - rewrite sum_amounts_snoc. cbn. lia. }
    assert (w = l) as -> by lia.
    assert (Hsame : forall h,
              cleanup tc (set_history h s)
              = cleanup tc (set_lastAmount (Wei l) (set_history h s))).
    { intros h. unfold cleanup, set_lastAmount, set_history; cbn. now rewrite Hl. }
    destruct (0 <? length (history s))%nat.
    + rewrite Hsame. apply Hcleanup; [now apply nonneg_alter|].
      now rewrite sum_amounts_alter.
    + unfold push. rewrite Hsame. apply Hcleanup.
      * apply Forall_app. split; [exact Hn|]. repeat constructor; cbn; lia.
      * rewrite sum_amounts_snoc. cbn. lia.
  - rewrite getStats_state, initialize_on by exact Hon.
    split; [exact Hon| |now apply nonneg_filter].
    exists i, l. split; [exact Hi|]. split; [exact Hl|].
    rewrite history_cleanup.
    pose proof (sum_amounts_filter_le (in_window tc) _ Hn). lia.
Qed.

Lemma tracking_run cs : forall s, tracking s -> polls cs = true -> tracking (run cs s).
Proof.
  induction cs as [|c cs IH]; intros s Hs Hcs; [exact Hs|].
  apply polls_cons in Hcs as (Hp & Hw & Hcs).
  rewrite run_cons. apply IH; [now apply tracking_step|exact Hcs].
Qed.

Lemma tracking_start c s :
  initialized s = false -> history s = [] -> well_formed c = true ->
  (exists a t tc, c = Update a t tc) \/ (exists a t, c = SetInitialAmount a t) ->
  tracking (step c s).
Proof.
  intros Hoff Hh Hwf [(a & t & tc & ->)|(a & t & ->)]; cbn [step well_formed] in *;
    unfold is_wei in Hwf; destruct (toWeiString a) as [w|] eqn:Hw; try discriminate.
  - rewrite (update_first s a t tc Hoff), Hh, Hw.
    split; cbn; [reflexivity| |repeat constructor; cbn; lia].
    exists w, w. repeat split. unfold sum_amounts; cbn. lia.
  - unfold setInitialAmount. rewrite Hw.
    split; cbn; [reflexivity| |unfold nonneg_deltas; cbn; rewrite Hh; constructor].
    exists w, w. repeat split. rewrite Hh. unfold sum_amounts; cbn. lia.
Qed.

(** X3. Start a session on a fresh accumulator with [update] or with
    [setInitialAmount], and go on with [update] and [getStats] calls whose
    arguments are amounts.  Then the window never holds more than the
    session has gained: five times the window rate per minute that
    [getStats] returns is at most the session total. *)
Theorem window_total_le_session_total (s0 : RewardHistory) (c0 : call) (cs : list call)
    (tc ti now : Z) :
  initialized s0 = false ->
  history s0 = [] ->
  well_formed c0 = true ->
  (exists a t tc0, c0 = Update a t tc0) \/ (exists a t, c0 = SetInitialAmount a t) ->
  polls cs = true ->
  exists stats,
    fst (getStats tc ti now (run (c0 :: cs) s0)) = Some stats /\
    0 <= perMinute (currentRate stats) /\
    5 * perMinute (currentRate stats) <= sessionTotal stats.
Proof.
  intros Hoff Hh Hwf Hc0 Hcs. rewrite run_cons.
  pose proof (tracking_run cs _ (tracking_start c0 s0 Hoff Hh Hwf Hc0) Hcs) as Htr.
  set (s := run cs (step c0 s0)) in *.
  pose proof (tracking_step (GetStats tc ti now) s Htr eq_refl eq_refl) as Htr'.
  cbn [step] in Htr'. rewrite getStats_state in Htr'.
  rewrite (getStats_numeric tc ti now s (tracking_numeric s Htr)). cbn [fst].
  eexists; split; [reflexivity|]. cbn [currentRate perMinute sessionTotal].
  destruct Htr' as [_ (i & l & Hi & Hl & Hsum) Hn].
  destruct (initialize_fields ti (cleanup tc s)) as (Hl' & Hi' & _).
  rewrite Hl' in Hl. rewrite Hi' in Hi. cbn in Hl, Hi.
  pose proof (sum_amounts_filter_le (in_window now) _ Hn) as [Hlo Hhi].
  set (total := sum_amounts (List.filter (in_window now) _)) in *.
  assert (Hsession : total <= session_total s).
  { unfold session_total. rewrite Hi, Hl. cbn. lia. }
  split; [apply Z.quot_pos; lia|].
  rewrite Z.quot_div_nonneg by lia.
  pose proof (Z.mul_div_le total 5 ltac:(lia)). lia.
Qed.

Lemma window_total_le_session_total_witness :
  let c0 := Update (ether 1) 0 0 in
  let cs := [ Update (ether 3) 60000 60000; GetStats 60001 60001 60001;
              Update (ether 4) 400000 400000 ] in
  initialized (new_RewardHistory 0) = false /\
  history (new_RewardHistory 0) = [] /\
  well_formed c0 = true /\
  polls cs = true /\
  perMinute ∘ currentRate
    <$> fst (getStats 400001 400001 400001 (run (c0 :: cs) (new_RewardHistory 0)))
    = Some (2 * 10 ^ 17) /\
  exists stats,
    fst (getStats 400001 400001 400001 (run (c0 :: cs) (new_RewardHistory 0))) = Some stats /\
    0 <= perMinute (currentRate stats) /\
    5 * perMinute (currentRate stats) <= sessionTotal stats.
Proof.
  intros c0 cs. do 5 (split; [reflexivity|]).
  apply (window_total_le_session_total (new_RewardHistory 0) c0 cs 400001 400001 400001);
    try reflexivity.
  left. now exists (ether 1), 0, 0.
Defined.

(** ** A session younger than the window *)

Lemma filter_in_window_all now h :
  Forall (fun p => now - windowMs <= timestamp p) h -> List.filter (in_window now) h = h.
Proof.
  induction 1 as [|p h Hp Hh IH]; [reflexivity|]. cbn.
  unfold in_window at 1. replace (now - windowMs <=? timestamp p) with true
    by (symmetry; now apply Z.leb_le).
  now rewrite IH.
Qed.

Lemma dates_alter start t i h :
  start <= t ->
  Forall (fun p => start <= timestamp p) h ->
  Forall (fun p => start <= timestamp p) (alter (set_timestamp t) i h).
Proof.
  intros Hle Hh. revert i.
  induction Hh as [|p h Hp Hh IH]; intros [|i]; cbn; constructor; auto.
Qed.

(** Pruning a history whose samples are all dated in the session: the dates
    stay, and the sum stays while the window reaches the session start. *)
Lemma young_cleanup start tc t h total :
  Forall (fun p => start <= timestamp p) h ->
  tc <= t ->
  (t <= start + windowMs -> sum_amounts h = total) ->
  Forall (fun p => start <= timestamp p) (List.filter (in_window tc) h) /\
  (t <= start + windowMs -> sum_amounts (List.filter (in_window tc) h) = total).
Proof.
  intros Hdates Hle Hsum. split; [now apply Forall_filter_bool|].
  intros Hyoung. rewrite filter_in_window_all; [auto|].
  eapply Forall_impl; [exact Hdates|]. cbn. intros; lia.
Qed.

Lemma young_update t a currentTime cleanupTime s :
  young t s -> is_wei a = true -> t <= currentTime -> currentTime <= cleanupTime ->
  young cleanupTime (update a currentTime cleanupTime s).
Proof.
  intros [Hon Hstart Hdates (i & l & Hi & Hl & Hil & Hsum)] Ha Hle Hle'.
  unfold is_wei in Ha. destruct (toWeiString a) as [w|] eqn:Hw; [|discriminate].
  rewrite (update_later s a currentTime cleanupTime w l Hon Hw Hl).
  destruct (Z.ltb_spec w l).
  { split; cbn; [reflexivity|lia|repeat constructor; cbn; lia|].
    exists w, w. repeat split; [lia|]. intros _. unfold sum_amounts; cbn. lia. }
  assert (Hcleanup : forall h last,
            Forall (fun p => startTime s <= timestamp p) h -> i <= last ->
            (cleanupTime <= startTime s + windowMs -> sum_amounts h = last - i) ->
            young cleanupTime
              (cleanup cleanupTime (set_lastAmount (Wei last) (set_history h s)))).
  { intros h last Hh Hlast Hsum'.
    destruct (young_cleanup (startTime s) cleanupTime cleanupTime h (last - i) Hh
                ltac:(lia) Hsum') as [Hd Hs].
    split; [exact Hon|cbn; lia|rewrite history_cleanup; exact Hd|].
    exists i, last. split; [exact Hi|]. split; [reflexivity|]. split; [exact Hlast|].
    rewrite history_cleanup. exact Hs. }
  destruct (Z.ltb_spec 0 (w - l)).
  { apply (Hcleanup (history s ++ [ {| timestamp := currentTime; amount := w - l |} ]) w).
    - apply Forall_app. split; [exact Hdates|]. repeat constructor; cbn; lia.
    - lia.
    - intros Hyoung. rewrite sum_amounts_snoc. cbn. rewrite Hsum by lia. lia. }
  assert (w = l) as -> by lia.
  assert (Hsame : forall h,
            cleanup cleanupTime (set_history h s)
            = cleanup cleanupTime (set_lastAmount (Wei l) (set_history h s))).
  { intros h. unfold cleanup, set_lastAmount, set_history; cbn. now rewrite Hl. }
  destruct (0 <? length (history s))%nat.
  - rewrite Hsame. apply Hcleanup; [apply dates_alter; [lia|exact Hdates]|exact Hil|].
    intros Hyoung. rewrite sum_amounts_alter. apply Hsum. lia.
  - unfold push. rewrite Hsame. apply Hcleanup; [|exact Hil|].
    + apply Forall_app. split; [exact Hdates|]. repeat constructor; cbn; lia.
    + intros Hyoung. rewrite sum_amounts_snoc. cbn. rewrite Hsum by lia. lia.
Qed.

Lemma young_getStats t tc ti now s :
  young t s -> t <= tc -> tc <= ti -> ti <= now ->
  young now (snd (getStats tc ti now s)).
Proof.
  intros [Hon Hstart Hdates (i & l & Hi & Hl & Hil & Hsum)] H1 H2 H3.
  rewrite getStats_state, initialize_on by exact Hon.
  destruct (young_cleanup (startTime s) tc now (history s) (l - i) Hdates ltac:(lia)
              ltac:(intros; apply Hsum; lia)) as [Hd Hs].
  split; [exact Hon|cbn; lia|rewrite history_cleanup; exact Hd|].
  exists i, l. split; [exact Hi|]. split; [exact Hl|]. split; [exact Hil|].
  rewrite history_cleanup. exact Hs.
Qed.

Lemma young_run cs : forall t s rest,
  young t s -> polls cs = true ->
  StronglySorted Z.le (t :: clock cs ++ rest) ->
  exists t', young t' (run cs s) /\ StronglySorted Z.le (t' :: rest).
Proof.
  induction cs as [|c cs IH]; intros t s rest Hy Hcs Hclock; [now exists t|].
  apply polls_cons in Hcs as (Hp & Hw & Hcs).
  rewrite clock_cons, <- app_assoc in Hclock. rewrite run_cons.
  destruct c as [a tcur tclean|tc ti now| |]; try discriminate Hp; cbn in Hclock, Hw.
  - apply sorted_clock_cons in Hclock as [H1 Hclock].
    apply sorted_clock_cons in Hclock as [H2 Hclock].
    exact (IH tclean _ rest (young_update t a tcur tclean s Hy Hw H1 H2) Hcs Hclock).
  - apply sorted_clock_cons in Hclock as [H1 Hclock].
    apply sorted_clock_cons in Hclock as [H2 Hclock].
    apply sorted_clock_cons in Hclock as [H3 Hclock].
    exact (IH now _ rest (young_getStats t tc ti now s Hy H1 H2 H3) Hcs Hclock).
Qed.

(** X4. A session that the first [update] on a fresh accumulator starts,
    continued with [update] and [getStats] calls whose arguments are
    amounts, on a clock that does not run backwards.  As long as [now] is
    within the window of the start of the session, nothing has been pruned
    and [getStats] counts all the session has gained in the window: its
    window rate per minute is the session total divided by 5, however
    short the session is. *)
Theorem young_session_rate (s0 : RewardHistory) (a : StringOrNumber) (t tc0 : Z)
    (cs : list call) (tc ti now : Z) :
  initialized s0 = false ->
  history s0 = [] ->
  is_wei a = true ->
  polls cs = true ->
  Sorted Z.le (clock (Update a t tc0 :: cs ++ [GetStats tc ti now])) ->
  let s := run (Update a t tc0 :: cs) s0 in
  now <= startTime s + windowMs ->
  exists stats,
    fst (getStats tc ti now s) = Some stats /\
    sum_amounts (history s) = sessionTotal stats /\
    perMinute (currentRate stats) = Z.quot (sessionTotal stats) 5.
Proof.
  intros Hoff Hh Ha Hcs Hclock s Hyoung.
  apply Sorted_StronglySorted in Hclock; [|intros ? ? ?; lia].
  change (Update a t tc0 :: cs ++ [GetStats tc ti now])
    with ([Update a t tc0] ++ cs ++ [GetStats tc ti now]) in Hclock.
  rewrite !clock_app in Hclock. cbn [clock map concat readings app] in Hclock.
  apply sorted_clock_cons in Hclock as [H0 Hclock].
  assert (Hfirst : young tc0 (update a t tc0 s0)).
  { unfold is_wei in Ha. destruct (toWeiString a) as [w|] eqn:Hw; [|discriminate].
    rewrite (update_first s0 a t tc0 Hoff), Hh, Hw.
    split; cbn; [reflexivity|lia|repeat constructor; cbn; lia|].
    exists w, w. repeat split; [lia|]. intros _. unfold sum_amounts; cbn. lia. }
  destruct (young_run cs tc0 _ _ Hfirst Hcs Hclock) as (t' & Hy & Hclock').
  change (run cs (update a t tc0 s0)) with s in Hy.
  apply sorted_clock_cons in Hclock' as [H1 Hclock'].
  apply sorted_clock_cons in Hclock' as [H2 Hclock'].
  apply sorted_clock_cons in Hclock' as [H3 _].
  destruct Hy as [Hon Hstart Hdates (i & l & Hi & Hl & Hil & Hsum)].
  assert (Hnum : numeric s = true) by (unfold numeric; now rewrite Hi, Hl).
  rewrite (getStats_numeric tc ti now s Hnum). cbn [fst].
  eexists; split; [reflexivity|]. cbn [sessionTotal currentRate perMinute].
  rewrite initialize_on by exact Hon. rewrite history_cleanup.
  assert (Htotal : session_total s = l - i).
  { unfold session_total. rewrite Hi, Hl. cbn. lia. }
  assert (Hall : forall u, u <= now ->
            Forall (fun p => u - windowMs <= timestamp p) (history s)).
  { intros u Hu. eapply Forall_impl; [exact Hdates|]. cbn beta. intros; lia. }
  rewrite (filter_in_window_all tc) by (apply Hall; lia).
  rewrite (filter_in_window_all now) by (apply Hall; lia).
  rewrite Htotal, Hsum by lia. split; reflexivity.
Qed.

Lemma young_session_rate_witness :
  let cs := [ Update (ether 3) 30000 30000; GetStats 30001 30001 30001;
              Update (ether 4) 60000 60000 ] in
  initialized (new_RewardHistory 0) = false /\
  history (new_RewardHistory 0) = [] /\
  is_wei (ether 1) = true /\
  polls cs = true /\
  Sorted Z.le (clock (Update (ether 1) 0 0 :: cs ++ [GetStats 61000 61000 61000])) /\
  61000 <= startTime (run (Update (ether 1) 0 0 :: cs) (new_RewardHistory 0)) + windowMs /\
  exists stats,
    fst (getStats 61000 61000 61000 (run (Update (ether 1) 0 0 :: cs) (new_RewardHistory 0)))
      = Some stats /\
    sessionTotal stats = 3 * 10 ^ 18 /\
    perMinute (currentRate stats) = 6 * 10 ^ 17.
Proof.
  intros cs.
  assert (Hclock : Sorted Z.le
            (clock (Update (ether 1) 0 0 :: cs ++ [GetStats 61000 61000 61000]))).
  { cbn. repeat constructor; lia. }
  assert (Hyoung : 61000 <= startTime (run (Update (ether 1) 0 0 :: cs) (new_RewardHistory 0))
                             + windowMs).
  { apply Z.leb_le. reflexivity. }
  do 4 (split; [reflexivity|]). split; [exact Hclock|]. split; [exact Hyoung|].
  destruct (young_session_rate (new_RewardHistory 0) (ether 1) 0 0 cs 61000 61000 61000
              eq_refl eq_refl eq_refl eq_refl Hclock Hyoung)
    as (stats & Hs & Hsum & Hrate).
  exists stats. split; [exact Hs|]. rewrite Hrate, <- Hsum. split; reflexivity.
Defined.

(** ** Accumulation with reads in between *)

Lemma polls_from_le cs : forall lo, polls_from lo cs = true -> lo <= last_cumulative lo cs.
Proof.
  induction cs as [|c cs IH]; intros lo Hcs; [cbn; lia|].
  destruct c as [[[w|]|] t tc|tc ti now| |]; try discriminate Hcs; cbn in *.
  - apply andb_prop in Hcs as [Hle Hcs]. apply Z.leb_le in Hle.
    specialize (IH w Hcs). lia.
  - now apply IH.
Qed.

Lemma run_polls_from cs : forall lo s,
  initialized s = true -> lastAmount s = Wei lo -> polls_from lo cs = true ->
  initialized (run cs s) = true /\
  lastAmount (run cs s) = Wei (last_cumulative lo cs) /\
  initialAmount (run cs s) = initialAmount s.
Proof.
  induction cs as [|c cs IH]; intros lo s Hi Hl Hcs; [now cbn|].
  rewrite run_cons. destruct c as [[[w|]|] t tc|tc ti now| |]; try discriminate Hcs.
  - cbn [polls_from last_cumulative] in *.
    apply andb_prop in Hcs as [Hle Hcs]. apply Z.leb_le in Hle.
    destruct (update_nondecreasing s w lo t tc Hi Hl Hle) as (Hi' & Hl' & Hb').
    destruct (IH w _ Hi' Hl' Hcs) as (Hi'' & Hl'' & Hb''). cbn [step].
    now rewrite Hb'', Hb'.
  - cbn [polls_from last_cumulative step] in *. rewrite getStats_state.
    destruct (initialize_fields ti (cleanup tc s)) as (Hl' & Hb' & _).
    destruct (IH lo (initialize ti (cleanup tc s))) as (Hi'' & Hl'' & Hb'');
      [apply initialized_initialize|now rewrite Hl'|exact Hcs|].
    now rewrite Hb'', Hb'.
Qed.

Lemma session_total_from s lo baseline cs tc ti now :
  initialized s = true -> lastAmount s = Wei lo -> initialAmount s = Some (Wei baseline) ->
  baseline <= lo -> polls_from lo cs = true ->
  exists stats,
    fst (getStats tc ti now (run cs s)) = Some stats /\
    sessionTotal stats = last_cumulative lo cs - baseline.
Proof.
  intros Hi Hl Hb Hle Hcs.
  destruct (run_polls_from cs lo s Hi Hl Hcs) as (Hi' & Hl' & Hb'). rewrite Hb in Hb'.
  pose proof (polls_from_le cs lo Hcs).
  rewrite getStats_numeric by (unfold numeric; now rewrite Hl', Hb'). cbn [fst].
  eexists; split; [reflexivity|]. cbn [sessionTotal]. unfold session_total.
  rewrite Hl', Hb'. cbn. lia.
Qed.

(** X5. [setInitialAmount(a)] sets the baseline to [a] and leaves the
    history as it is, and it turns the flag on, so that a [getStats] after
    it seeds no warm-up samples.  Through every run of [getStats] and
    [update] calls whose cumulative values do not decrease from [a],
    [getStats] then returns the last cumulative value minus [a] as the
    session total. *)
Theorem setInitialAmount_starts_session (s : RewardHistory) (a t : Z) (cs : list call)
    (tc ti now : Z) :
  polls_from a cs = true ->
  let s1 := setInitialAmount (Numeric (Some a)) t s in
  history s1 = history s /\
  history (snd (getStats tc ti now s1)) = List.filter (in_window tc) (history s) /\
  exists stats,
    fst (getStats tc ti now (run cs s1)) = Some stats /\
    sessionTotal stats = last_cumulative a cs - a.
Proof.
  intros Hcs s1. split; [reflexivity|]. split.
  - rewrite getStats_state, initialize_on by reflexivity. reflexivity.
  - apply (session_total_from s1 a a cs tc ti now); try reflexivity; exact Hcs.
Qed.

Lemma setInitialAmount_starts_session_witness :
  let cs := [ GetStats 1 1 1; Update (ether 7) 30000 30000; GetStats 30001 30001 30001;
              Update (ether 9) 60000 60000 ] in
  let s1 := setInitialAmount (ether 5) 0 (new_RewardHistory 0) in
  polls_from (5 * 10 ^ 18) cs = true /\
  history (snd (getStats 1 1 1 s1)) = [] /\
  exists stats,
    fst (getStats 60001 60001 60001 (run cs s1)) = Some stats /\
    sessionTotal stats = 4 * 10 ^ 18.
Proof.
  intros cs s1. split; [reflexivity|]. split; [reflexivity|].
  destruct (setInitialAmount_starts_session (new_RewardHistory 0) (5 * 10 ^ 18) 0 cs
              60001 60001 60001 eq_refl) as (_ & _ & stats & Hs & Ht).
  exists stats. split; [exact Hs|]. rewrite Ht. reflexivity.
Defined.

(** X6. Reads do not disturb the accumulation.  After the first
    [update(c0)] on an accumulator in the uninitialized state, through
    every run of [getStats] and [update] calls, in any order, whose
    cumulative values do not decrease from [c0], [getStats] returns the
    last cumulative value minus [c0] as the session total. *)
Theorem reads_between_updates (s0 : RewardHistory) (c0 t tc0 : Z) (cs : list call)
    (tc ti now : Z) :
  initialized s0 = false ->
  polls_from c0 cs = true ->
  exists stats,
    fst (getStats tc ti now (run (Update (Numeric (Some c0)) t tc0 :: cs) s0)) = Some stats /\
    sessionTotal stats = last_cumulative c0 cs - c0.
Proof.
  intros Hoff Hcs. rewrite run_cons. cbn [step].
  rewrite (update_first s0 _ t tc0 Hoff). cbn [toWeiString].
  apply session_total_from; try reflexivity; exact Hcs.
Qed.

Lemma reads_between_updates_witness :
  let cs := [ GetStats 1 1 1; Update (ether 7) 30000 30000; GetStats 30001 30001 30001;
              GetStats 45000 45000 45000; Update (ether 7) 60000 60000;
              Update (ether 12) 90000 90000 ] in
  initialized (new_RewardHistory 0) = false /\
  polls_from (5 * 10 ^ 18) cs = true /\
  exists stats,
    fst (getStats 90001 90001 90001
           (run (Update (ether 5) 0 0 :: cs) (new_RewardHistory 0))) = Some stats /\
    sessionTotal stats = 7 * 10 ^ 18.
Proof.
  intros cs. split; [reflexivity|]. split; [reflexivity|].
  destruct (reads_between_updates (new_RewardHistory 0) (5 * 10 ^ 18) 0 0 cs
              90001 90001 90001 eq_refl eq_refl) as (stats & Hs & Ht).
  exists stats. split; [exact Hs|]. rewrite Ht. reflexivity.
Defined.

(** ** An argument that is not a number *)

Lemma blocked_update a t tc s :
  initialized s = true -> lastAmount s = NotWei true -> update a t tc s = s.
Proof.
  intros Hon Hl. unfold update. rewrite Hon, Hl. cbn.
  now destruct (BigNumber_from (toWeiString a)).
Qed.

Lemma blocked_run cs : forall s,
  initialized s = true -> lastAmount s = NotWei true ->
  initialAmount s = Some (NotWei true) ->
  updates_and_reads cs = true ->
  initialized (run cs s) = true /\ lastAmount (run cs s) = NotWei true /\
  initialAmount (run cs s) = Some (NotWei true).
Proof.
  induction cs as [|c cs IH]; intros s Hon Hl Hb Hcs; [now cbn|].
  unfold updates_and_reads in Hcs. cbn [forallb] in Hcs. apply andb_prop in Hcs as [Hc Hcs].
  rewrite run_cons. destruct c as [a t tc|tc ti now| |]; try discriminate Hc; cbn [step].
  - rewrite blocked_update by assumption. now apply IH.
  - rewrite getStats_state.
    destruct (initialize_fields ti (cleanup tc s)) as (Hl' & Hb' & _).
    apply IH; [apply initialized_initialize|now rewrite Hl'|now rewrite Hb'|exact Hcs].
Qed.

(** X7. When the first [update] on an accumulator in the uninitialized
    state gets a string that is not empty and that [BigNumber.from] cannot
    read (['1e-7'], say), the string becomes the baseline and the last
    amount.  From then on, through every run of [update] and [getStats]
    calls with any arguments, each [update] leaves the state as it is and
    each [getStats] throws: only [reset] and [setInitialAmount] end
    this. *)
Theorem unreadable_first_update_blocks (s0 : RewardHistory) (t tc0 : Z) (cs : list call) :
  initialized s0 = false ->
  updates_and_reads cs = true ->
  let s := run cs (update (Verbatim (NotWei true)) t tc0 s0) in
  (forall a t' tc', update a t' tc' s = s) /\
  (forall tc ti now, fst (getStats tc ti now s) = None) /\
  (forall a t' tc ti now,
     exists stats, fst (getStats tc ti now (setInitialAmount (Numeric (Some a)) t' s))
                   = Some stats).
Proof.
  intros Hoff Hcs s.
  destruct (blocked_run cs (update (Verbatim (NotWei true)) t tc0 s0)) as (Hon & Hl & Hb);
    try (rewrite (update_first s0 _ t tc0 Hoff); reflexivity); [exact Hcs|].
  fold s in Hon, Hl, Hb. split; [|split].
  - intros a t' tc'. now apply blocked_update.
  - intros tc ti now. apply getStats_throws. unfold sessionTotal_of. now rewrite Hb, Hl.
  - intros a t' tc ti now. rewrite getStats_numeric by reflexivity. eexists; reflexivity.
Qed.

Lemma unreadable_first_update_blocks_witness :
  let cs := [ Update (ether 5) 30000 30000; GetStats 30001 30001 30001;
              Update (ether 9) 60000 60000 ] in
  let s := run cs (update (Verbatim (NotWei true)) 0 0 (new_RewardHistory 0)) in
  initialized (new_RewardHistory 0) = false /\
  updates_and_reads cs = true /\
  lastAmount s = NotWei true /\
  update (ether 12) 90000 90000 s = s /\
  fst (getStats 90001 90001 90001 s) = None.
Proof.
  intros cs s. do 3 (split; [reflexivity|]).
  destruct (unreadable_first_update_blocks (new_RewardHistory 0) 0 0 cs eq_refl eq_refl)
    as (Hupdate & Hstats & _).
  split; [apply Hupdate|apply Hstats].
Defined.

(** ** Before the first [update] *)

(** X8. A [getStats] on a fresh accumulator returns rates nobody has
    earned: with [now] within a minute of the seeding, the five warm-up
    samples give a window rate of [10 ^ 14] wei (0.0001 token) per minute,
    [6 * 10 ^ 15] per hour and [144 * 10 ^ 15] per day, next to a session
    total of zero.  With no call in between, a [getStats] later than the
    window after the seeding returns a window rate of zero again. *)
Theorem warmup_rate (t0 tc ti now tc' ti' now' : Z) :
  now <= ti + 60000 ->
  ti + windowMs < now' ->
  let first := getStats tc ti now (new_RewardHistory t0) in
  fst first
    = Some {| sessionTotal := 0;
              sessionDurationMinutes := Qmax 1 (Qmake (now - t0) 60000);
              sessionPerMinute := 0;
              currentRate := {| perMinute := 10 ^ 14;
                                perHour := 6 * 10 ^ 15;
                                perDay := 144 * 10 ^ 15 |} |} /\
  currentRate <$> fst (getStats tc' ti' now' (snd first))
    = Some {| perMinute := 0; perHour := 0; perDay := 0 |}.
Proof.
  intros Hnear Hlate first.
  assert (Hstate : snd first = set_initialized true
                                 (set_history (warmup ti) (new_RewardHistory t0))).
  { unfold first. rewrite getStats_state, initialize_off by reflexivity. reflexivity. }
  split.
  - unfold first. rewrite getStats_numeric by reflexivity. cbn [fst].
    rewrite initialize_off by reflexivity.
    cbn [history cleanup set_history set_initialized new_RewardHistory List.filter app
         startTime].
    replace (List.filter (in_window now) (warmup ti)) with (warmup ti).
    + unfold session_total. cbn [initialAmount new_RewardHistory].
      destruct (0 <? now - t0); reflexivity.
    + symmetry. apply filter_in_window_all. unfold warmup, windowMs. cbn.
      repeat constructor; cbn; lia.
  - rewrite Hstate, getStats_numeric by reflexivity. cbn [fst fmap option_fmap option_map currentRate].
    rewrite initialize_on by reflexivity. rewrite history_cleanup.
    cbn [history set_initialized set_history].
    replace (List.filter (in_window now') (List.filter (in_window tc') (warmup ti)))
      with (@nil RewardPoint); [reflexivity|].
    rewrite filter_in_window_comm.
    replace (List.filter (in_window now') (warmup ti)) with (@nil RewardPoint); [reflexivity|].
    unfold warmup, in_window, windowMs in *. cbn.
    repeat match goal with
           | |- context [?x <=? ?y] =>
               replace (x <=? y) with false by (symmetry; apply Z.leb_gt; lia)
           end.
    reflexivity.
Qed.

Lemma warmup_rate_witness :
  1000 <= 1000 + 60000 /\
  1000 + windowMs < 400000 /\
  perDay ∘ currentRate <$> fst (getStats 1000 1000 1000 (new_RewardHistory 0))
    = Some (144 * 10 ^ 15) /\
  currentRate
    <$> fst (getStats 400000 400000 400000 (snd (getStats 1000 1000 1000 (new_RewardHistory 0))))
    = Some {| perMinute := 0; perHour := 0; perDay := 0 |}.
Proof.
  assert (H1 : 1000 <= 1000 + 60000) by lia.
  assert (H2 : 1000 + windowMs < 400000) by (unfold windowMs; lia).
  split; [exact H1|]. split; [exact H2|].
  destruct (warmup_rate 0 1000 1000 1000 400000 400000 400000 H1 H2) as [Hfirst Hlater].
  split; [|exact Hlater]. rewrite Hfirst. reflexivity.
Defined.

(** ** The reward tracking of [getTotalStakingInfo] *)

Lemma track_all_cons p ps s : track_all (p :: ps) s = track_all ps (snd (track p s)).
Proof. reflexivity. Qed.

Lemma track_state p s :
  snd (track p s)
  = initialize (stats_seeded_at p)
      (cleanup (stats_pruned_at p)
         (if 0 <? rewardSum p
          then update (Numeric (Some (rewardSum p))) (update_at p) (update_pruned_at p) s
          else s)).
Proof. unfold track, trackRewards. apply getStats_state. Qed.

(** One poll on an accumulator that is initialized: the last amount follows
    the sum of the rewards, the baseline stays. *)
Lemma track_later p s lo :
  initialized s = true -> lastAmount s = Wei lo -> 0 <= lo -> lo <= rewardSum p ->
  let s' := snd (track p s) in
  initialized s' = true /\ lastAmount s' = Wei (rewardSum p) /\
  initialAmount s' = initialAmount s.
Proof.
  intros Hon Hl Hlo Hle. cbn zeta. rewrite track_state.
  set (s1 := if 0 <? rewardSum p then _ else s).
  assert (H1 : initialized s1 = true /\ lastAmount s1 = Wei (rewardSum p) /\
               initialAmount s1 = initialAmount s).
  { unfold s1. destruct (Z.ltb_spec 0 (rewardSum p)).
    - now apply (update_nondecreasing s (rewardSum p) lo).
    - assert (rewardSum p = lo) as -> by lia. auto. }
  destruct H1 as (Hon1 & Hl1 & Hb1).
  destruct (initialize_fields (stats_seeded_at p) (cleanup (stats_pruned_at p) s1))
    as (-> & -> & _).
  split; [apply initialized_initialize|]. now split.
Qed.

Lemma track_all_later ps : forall s lo,
  initialized s = true -> lastAmount s = Wei lo -> 0 <= lo ->
  Sorted Z.le (lo :: map rewardSum ps) ->
  let s' := track_all ps s in
  initialized s' = true /\
  lastAmount s' = Wei (List.last (map rewardSum ps) lo) /\
  initialAmount s' = initialAmount s.
Proof.
  induction ps as [|p ps IH]; intros s lo Hon Hl Hlo Hsorted; [now cbn|].
  cbn [map] in *. rewrite track_all_cons.
  inversion Hsorted as [|? ? Htail Hhd]; subst. inversion Hhd as [|? ? Hle]; subst.
  destruct (track_later p s lo Hon Hl Hlo Hle) as (Hon' & Hl' & Hb').
  destruct (IH _ _ Hon' Hl' ltac:(lia) Htail) as (Hon'' & Hl'' & Hb'').
  cbn zeta in *. rewrite Hb'', Hb'. repeat split; [exact Hon''|].
  rewrite Hl''. f_equal. symmetry. apply last_cons_default.
Qed.

Lemma track_all_app ps qs s : track_all (ps ++ qs) s = track_all qs (track_all ps s).
Proof. unfold track_all. apply fold_left_app. Qed.

Lemma track_sessionTotal p s :
  sessionTotal <$> fst (track p s) = sessionTotal_of (snd (track p s)).
Proof.
  unfold track, trackRewards. rewrite getStats_state, getStats_result, getStats_sessionTotal_of.
  now destruct (sessionTotal_of _).
Qed.

Lemma track_all_fresh t0 p1 ps :
  Sorted Z.le (0 :: map rewardSum (p1 :: ps)) ->
  let s := track_all (p1 :: ps) (new_RewardHistory t0) in
  lastAmount s = Wei (List.last (map rewardSum ps) (rewardSum p1)) /\
  initialAmount s = if 0 <? rewardSum p1 then Some (Wei (rewardSum p1)) else None.
Proof.
  intros Hsorted. cbn [map] in Hsorted.
  inversion Hsorted as [|? ? Htail Hhd]; subst. inversion Hhd as [|? ? Hle]; subst.
  cbn zeta. rewrite track_all_cons.
  set (s1 := snd (track p1 (new_RewardHistory t0))).
  assert (H1 : initialized s1 = true /\ lastAmount s1 = Wei (rewardSum p1) /\
               initialAmount s1 = if 0 <? rewardSum p1 then Some (Wei (rewardSum p1)) else None).
  { unfold s1. rewrite track_state.
    destruct (initialize_fields (stats_seeded_at p1)
                (cleanup (stats_pruned_at p1)
                   (if 0 <? rewardSum p1
                    then update (Numeric (Some (rewardSum p1))) (update_at p1)
                           (update_pruned_at p1) (new_RewardHistory t0)
                    else new_RewardHistory t0))) as (-> & -> & _).
    split; [apply initialized_initialize|].
    destruct (Z.ltb_spec 0 (rewardSum p1)).
    - rewrite update_first by reflexivity. now cbn.
    - assert (rewardSum p1 = 0) as -> by lia. now cbn. }
  destruct H1 as (Hon1 & Hl1 & Hb1).
  destruct (track_all_later ps s1 (rewardSum p1) Hon1 Hl1 Hle Htail) as (_ & Hl & Hb).
  cbn zeta in *. now rewrite Hl, Hb, Hb1.
Qed.

(** X9. [getTotalStakingInfo] calls [update] only when the rewards it has
    summed are positive, and [getStats] always.  On a fresh accumulator and
    with sums that do not decrease, the session total its poll gets is the
    current sum minus the first one when the first sum is positive.  When
    the first sum is zero the first [getStats] comes before any [update],
    the baseline is never set, and the session total is zero at every
    poll, whatever is earned later. *)
Theorem staking_session_total (t0 : Z) (ps : list staking_poll) (p : staking_poll) :
  Sorted Z.le (0 :: map rewardSum (ps ++ [p])) ->
  let first := rewardSum (hd p ps) in
  sessionTotal <$> fst (track p (track_all ps (new_RewardHistory t0)))
  = Some (if 0 <? first then rewardSum p - first else 0).
Proof.
  intros Hsorted first. rewrite track_sessionTotal.
  change (snd (track p (track_all ps (new_RewardHistory t0))))
    with (track_all [p] (track_all ps (new_RewardHistory t0))).
  rewrite <- track_all_app.
  assert (Hne : exists p1 rest, ps ++ [p] = p1 :: rest /\ hd p ps = p1 /\
                  List.last (map rewardSum rest) (rewardSum p1) = rewardSum p).
  { destruct ps as [|p1 ps']; [now exists p, []|].
    exists p1, (ps' ++ [p]). repeat split. rewrite map_app. cbn. apply List.last_last. }
  destruct Hne as (p1 & rest & Heq & Hhd & Hlast). rewrite Heq in *.
  destruct (track_all_fresh t0 p1 rest Hsorted) as [Hl Hb]. cbn zeta in Hl, Hb.
  rewrite Hlast in Hl. unfold first. rewrite Hhd.
  pose proof (sorted_first_le_last _ _
                (proj1 (Sorted_inv Hsorted)
                 : Sorted Z.le (rewardSum p1 :: map rewardSum rest))) as Hle.
  rewrite Hlast in Hle.
  unfold sessionTotal_of. rewrite Hl, Hb.
  destruct (Z.ltb_spec 0 (rewardSum p1)); [|reflexivity].
  cbn. f_equal. destruct (Z.ltb_spec 0 (rewardSum p - rewardSum p1)); lia.
Qed.

Lemma staking_session_total_witness :
  let poll r t := {| rewardSum := r; update_at := t; update_pruned_at := t;
                     stats_pruned_at := t; stats_seeded_at := t; stats_at := t |} in
  (Sorted Z.le (0 :: map rewardSum ([ poll 0 0; poll (2 * 10 ^ 18) 60000 ]
                                     ++ [ poll (5 * 10 ^ 18) 120000 ])) /\
   sessionTotal <$> fst (track (poll (5 * 10 ^ 18) 120000)
                           (track_all [ poll 0 0; poll (2 * 10 ^ 18) 60000 ]
                              (new_RewardHistory 0))) = Some 0) /\
  (Sorted Z.le (0 :: map rewardSum ([ poll (10 ^ 18) 0; poll (2 * 10 ^ 18) 60000 ]
                                     ++ [ poll (5 * 10 ^ 18) 120000 ])) /\
   sessionTotal <$> fst (track (poll (5 * 10 ^ 18) 120000)
                           (track_all [ poll (10 ^ 18) 0; poll (2 * 10 ^ 18) 60000 ]
                              (new_RewardHistory 0))) = Some (4 * 10 ^ 18)).
Proof.
  intros poll.
  assert (H0 : Sorted Z.le (0 :: map rewardSum ([ poll 0 0; poll (2 * 10 ^ 18) 60000 ]
                                                 ++ [ poll (5 * 10 ^ 18) 120000 ]))).
  { cbn. repeat constructor; lia. }
  assert (H1 : Sorted Z.le (0 :: map rewardSum ([ poll (10 ^ 18) 0; poll (2 * 10 ^ 18) 60000 ]
                                                 ++ [ poll (5 * 10 ^ 18) 120000 ]))).
  { cbn. repeat constructor; lia. }
  split; (split; [assumption|]).
  - exact (staking_session_total 0 [ poll 0 0; poll (2 * 10 ^ 18) 60000 ]
             (poll (5 * 10 ^ 18) 120000) H0).
  - exact (staking_session_total 0 [ poll (10 ^ 18) 0; poll (2 * 10 ^ 18) 60000 ]
             (poll (5 * 10 ^ 18) 120000) H1).
Defined.

(** ** The one-minute tracker *)

Section Tracker.
Import RewardTracker.
Implicit Types (h : list RewardDataPoint) (s : RewardTracker.RewardTracker).

Lemma findIndex_ge {A : Type} (f : A -> bool) (l : list A) : -1 <= findIndex f l.
Proof.
  induction l as [|x l IH]; cbn; [lia|].
  destruct (f x); [lia|]. destruct (Z.ltb_spec (findIndex f l) 0); lia.
Qed.

Lemma findIndex_none {A : Type} (f : A -> bool) (l : list A) :
  Forall (fun x => f x = false) l -> findIndex f l = -1.
Proof.
  induction 1 as [|x l Hx Hl IH]; cbn; [reflexivity|]. rewrite Hx, IH. reflexivity.
Qed.

Lemma findIndex_some {A : Type} (f : A -> bool) (l : list A) :
  Exists (fun x => f x = true) l -> 0 <= findIndex f l.
Proof.
  induction 1 as [x l Hx|x l Hl IH]; cbn.
  - rewrite Hx. lia.
  - destruct (f x); [lia|]. destruct (Z.ltb_spec (findIndex f l) 0); lia.
Qed.

Lemma rewards_fold h : fold_left (fun sum point => sum + reward point) h 0 = sum_rewards h.
Proof.
  unfold sum_rewards.
  enough (Hgen : forall acc, fold_left (fun sum point => sum + reward point) h acc
                             = acc + foldr (fun p a => reward p + a) 0 h) by (now rewrite Hgen).
  induction h as [|p h IH]; intros acc; cbn; [lia|]. rewrite IH. lia.
Qed.

Lemma recent_later now p q :
  le_timestamp p q -> recent now p = true -> recent now q = true.
Proof.
  unfold le_timestamp, recent. intros Hle Hp.
  apply Z.leb_le in Hp. apply Z.leb_le. lia.
Qed.

Lemma filter_all {A : Type} (f : A -> bool) (l : list A) :
  Forall (fun x => f x = true) l -> List.filter f l = l.
Proof.
  induction 1 as [|x l Hx Hl IHl]; [reflexivity|]. cbn. rewrite Hx. now f_equal.
Qed.

(** On a history in the order of the dates, dropping up to the first recent
    sample is keeping the recent samples. *)
Lemma drop_findIndex now h :
  StronglySorted le_timestamp h ->
  0 <= findIndex (recent now) h ->
  drop (Z.to_nat (findIndex (recent now) h)) h = List.filter (recent now) h.
Proof.
  induction 1 as [|p h Hh IH Hp]; cbn [findIndex]; [lia|].
  destruct (recent now p) eqn:Hrecent.
  - intros _. change (drop (Z.to_nat 0) (p :: h)) with (p :: h).
    cbn [List.filter]. rewrite Hrecent. f_equal. symmetry. apply filter_all.
    eapply Forall_impl; [exact Hp|]. cbn beta. intros q Hq. now apply (recent_later now p).
  - destruct (Z.ltb_spec (findIndex (recent now) h) 0) as [Hneg|Hpos]; [lia|].
    intros _. replace (Z.to_nat (findIndex (recent now) h + 1))
      with (S (Z.to_nat (findIndex (recent now) h))) by lia.
    change (drop (S (Z.to_nat (findIndex (recent now) h))) (p :: h))
      with (drop (Z.to_nat (findIndex (recent now) h)) h).
    cbn [List.filter]. rewrite Hrecent. now apply IH.
Qed.

Lemma cleanupOldData_sorted now s :
  StronglySorted le_timestamp (rewardHistory s) ->
  Exists (fun p => recent now p = true) (rewardHistory s) ->
  rewardHistory (cleanupOldData now s) = List.filter (recent now) (rewardHistory s).
Proof.
  intros Hsorted Hsome. unfold cleanupOldData.
  fold (recent now). change (fun point => now - maxAgeMs <=? timestamp point) with (recent now).
  pose proof (findIndex_some (recent now) _ Hsome) as Hge.
  pose proof (drop_findIndex now _ Hsorted Hge) as Hdrop.
  destruct (Z.ltb_spec 0 (findIndex (recent now) (rewardHistory s))) as [Hpos|Hzero].
  - exact Hdrop.
  - assert (Hz : findIndex (recent now) (rewardHistory s) = 0) by lia.
    rewrite Hz in Hdrop. exact Hdrop.
Qed.

Lemma cleanupOldData_stale now s :
  Forall (fun p => timestamp p < now - maxAgeMs) (rewardHistory s) ->
  cleanupOldData now s = s.
Proof.
  intros Hstale. unfold cleanupOldData. rewrite findIndex_none; [reflexivity|].
  eapply Forall_impl; [exact Hstale|]. cbn beta. intros p Hp. now apply Z.leb_gt.
Qed.

End Tracker.

(** X10. When every sample of the tracker is older than one minute,
    [cleanupOldData] finds no sample to keep from and removes nothing: a
    [getRewardsLastMinute] then returns all the old samples, and their sum
    as the total of the last minute. *)
Theorem stale_samples_are_reported (scaledTimeFactor : Z -> Z) (now : Z)
    (s : RewardTracker.RewardTracker) :
  RewardTracker.rewardHistory s <> [] ->
  Forall (fun p => RewardTracker.timestamp p < now - RewardTracker.maxAgeMs)
    (RewardTracker.rewardHistory s) ->
  let result := RewardTracker.getRewardsLastMinute scaledTimeFactor now s in
  snd result = s /\
  RewardTracker.dataPoints (fst result) = RewardTracker.rewardHistory s /\
  RewardTracker.total (fst result) = RewardTracker.sum_rewards (RewardTracker.rewardHistory s).
Proof.
  intros Hne Hstale. cbn zeta. unfold RewardTracker.getRewardsLastMinute.
  rewrite cleanupOldData_stale by exact Hstale.
  destruct (RewardTracker.rewardHistory s) as [|p h] eqn:Hh; [congruence|].
  cbn [fst snd RewardTracker.dataPoints RewardTracker.total].
  repeat split. apply rewards_fold.
Qed.

Lemma stale_samples_are_reported_witness :
  let s := RewardTracker.addRewards [ (5, 0, 0); (7, 30000, 30000) ]
             RewardTracker.new_RewardTracker in
  RewardTracker.rewardHistory s <> [] /\
  Forall (fun p => RewardTracker.timestamp p < 600000 - RewardTracker.maxAgeMs)
    (RewardTracker.rewardHistory s) /\
  RewardTracker.total (fst (RewardTracker.getRewardsLastMinute (fun ms => 60000000 / ms) 600000 s))
    = 12.
Proof.
  intros s.
  assert (Hne : RewardTracker.rewardHistory s <> []) by discriminate.
  assert (Hstale : Forall (fun p => RewardTracker.timestamp p < 600000 - RewardTracker.maxAgeMs)
                     (RewardTracker.rewardHistory s)).
  { repeat constructor. }
  split; [exact Hne|]. split; [exact Hstale|].
  destruct (stale_samples_are_reported (fun ms => 60000000 / ms) 600000 s Hne Hstale)
    as (_ & _ & Htotal).
  rewrite Htotal. reflexivity.
Defined.

(** X11. On a history in the order of the dates with at least one sample
    of the last minute, [getRewardsLastMinute] keeps and returns the
    samples of the last minute and no other, and its total is their
    sum. *)
Theorem recent_samples_are_summed (scaledTimeFactor : Z -> Z) (now : Z)
    (s : RewardTracker.RewardTracker) :
  Sorted RewardTracker.le_timestamp (RewardTracker.rewardHistory s) ->
  Exists (fun p => RewardTracker.recent now p = true) (RewardTracker.rewardHistory s) ->
  let result := RewardTracker.getRewardsLastMinute scaledTimeFactor now s in
  let kept := List.filter (RewardTracker.recent now) (RewardTracker.rewardHistory s) in
  RewardTracker.rewardHistory (snd result) = kept /\
  RewardTracker.dataPoints (fst result) = kept /\
  RewardTracker.total (fst result) = RewardTracker.sum_rewards kept.
Proof.
  intros Hsorted Hsome. cbn zeta.
  apply Sorted_StronglySorted in Hsorted;
    [|intros ? ? ?; unfold RewardTracker.le_timestamp; lia].
  pose proof (cleanupOldData_sorted now s Hsorted Hsome) as Hkept.
  unfold RewardTracker.getRewardsLastMinute.
  destruct (RewardTracker.rewardHistory (RewardTracker.cleanupOldData now s)) as [|p h] eqn:Hh;
    cbn [fst snd RewardTracker.dataPoints RewardTracker.total]; rewrite <- Hkept, Hh.
  - repeat split.
  - repeat split. apply rewards_fold.
Qed.

Lemma recent_samples_are_summed_witness :
  let s := {| RewardTracker.rewardHistory :=
                [ {| RewardTracker.timestamp := 0; RewardTracker.reward := 5 |};
                  {| RewardTracker.timestamp := 50000; RewardTracker.reward := 7 |};
                  {| RewardTracker.timestamp := 100000; RewardTracker.reward := 11 |} ];
              RewardTracker.lastProcessedReward := 0 |} in
  Sorted RewardTracker.le_timestamp (RewardTracker.rewardHistory s) /\
  Exists (fun p => RewardTracker.recent 105000 p = true) (RewardTracker.rewardHistory s) /\
  RewardTracker.total (fst (RewardTracker.getRewardsLastMinute (fun ms => 60000000 / ms) 105000 s))
    = 18.
Proof.
  intros s.
  assert (Hsorted : Sorted RewardTracker.le_timestamp (RewardTracker.rewardHistory s)).
  { repeat constructor; unfold RewardTracker.le_timestamp; cbn; lia. }
  assert (Hsome : Exists (fun p => RewardTracker.recent 105000 p = true)
                    (RewardTracker.rewardHistory s)).
  { apply Exists_cons_tl, Exists_cons_hd. reflexivity. }
  split; [exact Hsorted|]. split; [exact Hsome|].
  destruct (recent_samples_are_summed (fun ms => 60000000 / ms) 105000 s Hsorted Hsome)
    as (_ & _ & Htotal).
  rewrite Htotal. reflexivity.
Defined.

Section TrackerRuns.
Import RewardTracker.
Implicit Types (h : list RewardDataPoint) (s : RewardTracker.RewardTracker).

Lemma cleanupOldData_suffix now s :
  exists k, rewardHistory (cleanupOldData now s) = drop k (rewardHistory s).
Proof.
  unfold cleanupOldData. destruct (0 <? findIndex _ _).
  - eexists. reflexivity.
  - exists 0%nat. reflexivity.
Qed.

Lemma sorted_drop k h :
  StronglySorted le_timestamp h -> StronglySorted le_timestamp (drop k h).
Proof.
  intros Hs. rewrite <- (take_drop k h) in Hs. now apply StronglySorted_app_1_r in Hs.
Qed.

Lemma addReward_sorted t r now cleanupTime s :
  StronglySorted le_timestamp (rewardHistory s) ->
  Forall (fun p => timestamp p <= t) (rewardHistory s) ->
  t <= now -> now <= cleanupTime ->
  exists s',
    addReward (Wei r) now cleanupTime s = Some s' /\
    StronglySorted le_timestamp (rewardHistory s') /\
    Forall (fun p => timestamp p <= cleanupTime) (rewardHistory s') /\
    (cleanupTime <= now + maxAgeMs ->
       rewardHistory s'
       = List.filter (recent cleanupTime)
           (rewardHistory s ++ [ {| timestamp := now; reward := r |} ])).
Proof.
  intros Hs Hpast Hle Hle'. unfold addReward. cbn [BigNumber_from].
  set (h1 := rewardHistory s ++ [ {| timestamp := now; reward := r |} ]).
  set (s1 := set_rewardHistory h1 s).
  assert (Hs1 : StronglySorted le_timestamp h1).
  { apply StronglySorted_app. split; [|split; [exact Hs|repeat constructor]].
    intros p q Hp Hq. apply list_elem_of_singleton in Hq as ->.
    rewrite Forall_forall in Hpast. specialize (Hpast p Hp). unfold le_timestamp. cbn. lia. }
  assert (Hpast1 : Forall (fun p => timestamp p <= cleanupTime) h1).
  { apply Forall_app. split; [|repeat constructor; cbn; lia].
    eapply Forall_impl; [exact Hpast|]. cbn beta. intros; lia. }
  eexists. split; [reflexivity|].
  destruct (cleanupOldData_suffix cleanupTime s1) as [k Hk]. rewrite Hk.
  split; [now apply sorted_drop|]. split.
  - change (rewardHistory s1) with h1. rewrite <- (take_drop k h1) in Hpast1.
    now apply Forall_app in Hpast1 as [_ Hdrop].
  - intros Hshort. rewrite <- Hk. apply cleanupOldData_sorted; [exact Hs1|].
    change (rewardHistory s1) with h1. unfold h1. apply Exists_app. right.
    apply Exists_cons_hd. unfold recent. cbn. apply Z.leb_le. lia.
Qed.

Lemma addRewards_sorted rs : forall t s rest,
  StronglySorted le_timestamp (rewardHistory s) ->
  Forall (fun p => timestamp p <= t) (rewardHistory s) ->
  StronglySorted Z.le (t :: clock rs ++ rest) ->
  exists t',
    StronglySorted le_timestamp (rewardHistory (addRewards rs s)) /\
    Forall (fun p => timestamp p <= t') (rewardHistory (addRewards rs s)) /\
    StronglySorted Z.le (t' :: rest).
Proof.
  induction rs as [|[[r now] cleanupTime] rs IH]; intros t s rest Hs Hpast Hclock.
  { exists t. auto. }
  change (clock (((r, now), cleanupTime) :: rs)) with ([now; cleanupTime] ++ clock rs) in Hclock.
  rewrite <- app_assoc in Hclock. cbn [app] in Hclock.
  apply sorted_clock_cons in Hclock as [H1 Hclock].
  apply sorted_clock_cons in Hclock as [H2 Hclock].
  destruct (addReward_sorted t r now cleanupTime s Hs Hpast H1 H2) as (s' & Hadd & Hs' & Hp' & _).
  cbn [addRewards]. rewrite Hadd. exact (IH cleanupTime s' rest Hs' Hp' Hclock).
Qed.

Lemma addRewards_app rs r now cleanupTime s :
  addRewards (rs ++ [ (r, now, cleanupTime) ]) s
  = default (addRewards rs s) (addReward (Wei r) now cleanupTime (addRewards rs s)).
Proof.
  revert s. induction rs as [|[[r' now'] c'] rs IH]; intros s; cbn; [reflexivity|]. apply IH.
Qed.

Lemma getRewardDifferences_spec cs : forall s,
  let result := getRewardDifferences cs s in
  length (fst result) = length cs /\
  Forall (fun d => 0 <= d) (fst result) /\
  rewardHistory (snd result) = rewardHistory s /\
  lastProcessedReward (snd result) = List.last cs (lastProcessedReward s) /\
  (Sorted Z.le (lastProcessedReward s :: cs) ->
   foldr Z.add 0 (fst result) = List.last cs (lastProcessedReward s) - lastProcessedReward s).
Proof.
  induction cs as [|c cs IH]; intros s.
  { cbn. repeat split; [constructor|intros _; lia]. }
  cbn [getRewardDifferences getRewardDifference BigNumber_from].
  set (s' := {| rewardHistory := rewardHistory s; lastProcessedReward := c |}).
  assert (Hstep : exists d,
            (if c <? lastProcessedReward s then Some (0, s')
             else Some (c - lastProcessedReward s, s')) = Some (d, s') /\
            0 <= d /\ (lastProcessedReward s <= c -> d = c - lastProcessedReward s)).
  { destruct (Z.ltb_spec c (lastProcessedReward s)); eexists; (split; [reflexivity|]); lia. }
  destruct Hstep as (d & -> & Hd & Hexact).
  specialize (IH s'). cbn zeta in IH. destruct (getRewardDifferences cs s') as [ds s''].
  cbn [fst snd] in *. destruct IH as (Hlen & Hpos & Hh & Hlast & Hsum).
  rewrite last_cons_default. cbn [length foldr].
  repeat split; [now f_equal|now constructor|exact Hh|exact Hlast|].
  intros Hsorted. inversion Hsorted as [|? ? Htail Hhd]; subst.
  inversion Hhd as [|? ? Hle]; subst.
  rewrite (Hsum Htail), (Hexact Hle). cbn. lia.
Qed.

End TrackerRuns.





(** ** [formatNumber] *)

Section Formatting.
Import Format.
Implicit Types (c : ascii) (s ds fs : list ascii).

Lemma is_digit_word c : is_digit c = true -> is_word c = true.
Proof. unfold is_word. now intros ->. Qed.

Lemma digit_run_app ds s : digits ds -> digit_run (ds ++ s) = (length ds + digit_run s)%nat.
Proof.
  induction 1 as [|c ds Hc Hds IH]; cbn; [reflexivity|]. now rewrite Hc, IH.
Qed.

Lemma digit_run_digits ds : digits ds -> digit_run ds = length ds.
Proof.
  intros Hds. rewrite <- (app_nil_r ds) at 1. rewrite digit_run_app by exact Hds. cbn. lia.
Qed.

Lemma replace_separators_nil prev : replace_separators prev [] = [].
Proof. cbn. unfold separator_here. cbn. now rewrite andb_false_r. Qed.

Lemma replace_separators_cons prev c s :
  replace_separators prev (c :: s)
  = (if separator_here prev (c :: s) then [ "."%char ] else [])
    ++ c :: replace_separators (Some c) s.
Proof. reflexivity. Qed.

(** A position whose run of digits is not a positive multiple of three
    gets no separator. *)
Lemma no_separator prev s :
  (digit_run s = 0 \/ digit_run s mod 3 <> 0)%nat -> separator_here prev s = false.
Proof.
  intros [Hrun|Hrun]; unfold separator_here.
  - rewrite Hrun. cbn. now rewrite andb_false_r.
  - replace (digit_run s mod 3 =? 0)%nat with false by (symmetry; now apply Nat.eqb_neq).
    apply andb_false_r.
Qed.

Lemma separator_here_word_at p q s :
  word_at p = word_at q -> separator_here p s = separator_here q s.
Proof. unfold separator_here. now intros ->. Qed.

Lemma replace_separators_word_at p q s :
  word_at p = word_at q -> replace_separators p s = replace_separators q s.
Proof.
  intros Hpq. destruct s as [|c s]; cbn; now rewrite (separator_here_word_at p q).
Qed.

(** Three more digits at the end: a separator in front of them, and the
    separators before stay where they are. *)
Lemma replace_separators_snoc3 ds : forall prev a b c,
  digits ds -> digits [a; b; c] ->
  (ds = [] -> word_at prev = true) ->
  replace_separators prev (ds ++ [a; b; c])
  = replace_separators prev ds ++ "."%char :: [a; b; c].
Proof.
  induction ds as [|x ds IH]; intros prev a b c Hds Habc Hprev.
  - rewrite replace_separators_nil. cbn [app].
    inversion Habc as [|? ? Ha Hbc]; subst. inversion Hbc as [|? ? Hb Hc]; subst.
    inversion Hc as [|? ? Hc' _]; subst.
    rewrite !replace_separators_cons, replace_separators_nil.
    rewrite (no_separator (Some a)) by (cbn; rewrite Hb, Hc'; cbn; lia).
    rewrite (no_separator (Some b)) by (cbn; rewrite Hc'; cbn; lia).
    unfold separator_here. cbn [head word_at digit_run].
    rewrite Hprev by reflexivity. rewrite (is_digit_word a Ha), Ha, Hb, Hc'. reflexivity.
  - inversion Hds as [|? ? Hx Hds']; subst. cbn [app replace_separators].
    rewrite (IH (Some x) a b c Hds' Habc) by (intros _; cbn; now apply is_digit_word).
    assert (Hhere : separator_here prev (x :: ds ++ [a; b; c]) = separator_here prev (x :: ds)).
    { unfold separator_here. cbn [head word_at digit_run]. rewrite Hx.
      rewrite digit_run_app, (digit_run_digits ds) by exact Hds'.
      rewrite (digit_run_digits [a; b; c]) by exact Habc. cbn [length].
      replace (S (length ds + 3)) with (S (length ds) + 1 * 3)%nat by lia.
      rewrite Nat.Div0.mod_add. reflexivity. }
    rewrite Hhere. now rewrite <- app_assoc.
Qed.

Lemma replace_separators_short ds :
  digits ds -> (length ds <= 3)%nat -> replace_separators None ds = ds.
Proof.
  unfold digits. intros Hds Hlen.
  destruct ds as [|a [|b [|c [|d ds]]]]; [| | | |cbn in Hlen; lia].
  - apply replace_separators_nil.
  - apply Forall_cons in Hds as [Ha _].
    rewrite !replace_separators_cons, replace_separators_nil.
    rewrite (no_separator None) by (cbn; rewrite Ha; cbn; lia). reflexivity.
  - apply Forall_cons in Hds as [Ha Hds]. apply Forall_cons in Hds as [Hb _].
    rewrite !replace_separators_cons, replace_separators_nil.
    rewrite (no_separator None) by (cbn; rewrite Ha, Hb; cbn; lia).
    rewrite (no_separator (Some a)) by (cbn; rewrite Hb; cbn; lia). reflexivity.
  - apply Forall_cons in Hds as [Ha Hds]. apply Forall_cons in Hds as [Hb Hds].
    apply Forall_cons in Hds as [Hc _].
    rewrite !replace_separators_cons, replace_separators_nil.
    assert (Hfirst : separator_here None [a; b; c] = false).
    { unfold separator_here. cbn [head word_at]. now rewrite (is_digit_word a Ha). }
    rewrite Hfirst.
    rewrite (no_separator (Some a)) by (cbn; rewrite Hb, Hc; cbn; lia).
    rewrite (no_separator (Some b)) by (cbn; rewrite Hc; cbn; lia). reflexivity.
Qed.

Lemma split_no_separator sep s :
  Forall (fun c => Ascii.eqb c sep = false) s -> split sep s = [ s ].
Proof.
  induction 1 as [|c s Hc Hs IH]; cbn; [reflexivity|]. now rewrite Hc, IH.
Qed.

Lemma split_at_separator sep s1 s2 :
  Forall (fun c => Ascii.eqb c sep = false) s1 ->
  split sep (s1 ++ sep :: s2) = s1 :: split sep s2.
Proof.
  induction 1 as [|c s Hc Hs IH]; cbn.
  - now rewrite Ascii.eqb_refl.
  - now rewrite Hc, IH.
Qed.

Lemma digit_not_dot c : is_digit c = true -> Ascii.eqb c "."%char = false.
Proof.
  intros Hc. destruct (Ascii.eqb_spec c "."%char) as [->|]; [discriminate Hc|reflexivity].
Qed.

Lemma digits_no_dot ds : digits ds -> Forall (fun c => Ascii.eqb c "."%char = false) ds.
Proof. intros Hds. eapply Forall_impl; [exact Hds|]. apply digit_not_dot. Qed.

Lemma formatNumber_digits ds decimals :
  digits ds -> formatNumber (Some ds) decimals = replace_separators None ds.
Proof.
  intros Hds. unfold formatNumber. now rewrite split_no_separator by now apply digits_no_dot.
Qed.

(** The replacement puts in dots and nothing else. *)
Lemma replace_separators_keeps prev s :
  List.filter (fun c => negb (Ascii.eqb c "."%char)) (replace_separators prev s)
  = List.filter (fun c => negb (Ascii.eqb c "."%char)) s.
Proof.
  revert prev. induction s as [|c s IH]; intros prev; cbn [replace_separators].
  - now destruct (separator_here prev []).
  - rewrite List.filter_app. cbn [List.filter]. rewrite IH.
    now destruct (separator_here prev (c :: s)).
Qed.

End Formatting.

(** X14. [formatNumber] groups the digits of a whole number in threes from
    the right with dots: up to three digits are left as they are, and three
    more digits at the end come after a dot, with the digits before them
    formatted as without them. *)
Theorem thousands_are_grouped (decimals : nat) :
  (forall ds,
     Format.digits ds -> (length ds <= 3)%nat ->
     Format.formatNumber (Some ds) decimals = ds) /\
  (forall ds a b c,
     Format.digits ds -> ds <> [] -> Format.digits [a; b; c] ->
     Format.formatNumber (Some (ds ++ [a; b; c])) decimals
     = Format.formatNumber (Some ds) decimals ++ "."%char :: [a; b; c]).
Proof.
  split.
  - intros ds Hds Hlen. rewrite formatNumber_digits by exact Hds.
    now apply replace_separators_short.
  - intros ds a b c Hds Hne Habc.
    rewrite !formatNumber_digits; [|exact Hds|apply Forall_app; now split].
    apply replace_separators_snoc3; [exact Hds|exact Habc|contradiction].
Qed.

Lemma thousands_are_grouped_witness :
  Format.formatNumber (Some (list_ascii_of_string "999")) 0 = list_ascii_of_string "999" /\
  Format.formatNumber (Some (list_ascii_of_string "1234567")) 0
    = list_ascii_of_string "1.234.567" /\
  Format.formatNumber (Some (list_ascii_of_string "1234" ++ list_ascii_of_string "567")) 0
    = Format.formatNumber (Some (list_ascii_of_string "1234")) 0
      ++ "."%char :: list_ascii_of_string "567".
Proof.
  destruct (thousands_are_grouped 0) as [Hshort Hmore].
  split; [|split; [reflexivity|]].
  - apply Hshort; [repeat constructor|cbn; lia].
  - apply (Hmore (list_ascii_of_string "1234") "5"%char "6"%char "7"%char);
      [repeat constructor|discriminate|repeat constructor].
Defined.

(** X15. For what [toFixed] writes for a number with decimals, a sign, the
    digits of the whole part, a point and the decimals, [formatNumber]
    returns the sign, the whole part grouped as for a whole number, a
    comma in the place of the point, and the decimals as they are.  The
    grouping only puts dots in: without them the whole part reads as
    before. *)
Theorem signed_decimal_is_formatted (negative : bool) (ds fs : list ascii) (decimals : nat) :
  Format.digits ds ->
  ds <> [] ->
  Format.digits fs ->
  let sign := if negative then [ "-"%char ] else [] in
  Format.formatNumber (Some (sign ++ ds ++ "."%char :: fs)) decimals
    = sign ++ Format.formatNumber (Some ds) decimals ++ ","%char :: fs /\
  List.filter (fun c => negb (Ascii.eqb c "."%char)) (Format.formatNumber (Some ds) decimals)
    = ds.
Proof.
  intros Hds Hne Hfs sign. split.
  - rewrite (formatNumber_digits ds) by exact Hds. unfold Format.formatNumber.
    rewrite app_assoc, split_at_separator.
    + rewrite split_no_separator by now apply digits_no_dot.
      cbn [Format.join]. destruct negative; cbn [app sign].
      * rewrite replace_separators_cons.
        rewrite (no_separator None) by (left; reflexivity). cbn [app].
        rewrite (replace_separators_word_at (Some "-"%char) None) by reflexivity.
        reflexivity.
      * reflexivity.
    + apply Forall_app. split; [destruct negative; repeat constructor|now apply digits_no_dot].
  - rewrite formatNumber_digits by exact Hds. rewrite replace_separators_keeps.
    apply filter_all. eapply Forall_impl; [exact Hds|].
    cbn beta. intros c Hc. now rewrite digit_not_dot.
Qed.

Lemma signed_decimal_is_formatted_witness :
  Format.digits (list_ascii_of_string "1234567") /\
  list_ascii_of_string "1234567" <> [] /\
  Format.digits (list_ascii_of_string "8900") /\
  Format.formatNumber (Some (list_ascii_of_string "-1234567.8900")) 4
    = list_ascii_of_string "-1.234.567,8900".
Proof.
  assert (Hds : Format.digits (list_ascii_of_string "1234567")) by repeat constructor.
  assert (Hne : list_ascii_of_string "1234567" <> []) by discriminate.
  assert (Hfs : Format.digits (list_ascii_of_string "8900")) by repeat constructor.
  split; [exact Hds|]. split; [exact Hne|]. split; [exact Hfs|].
  destruct (signed_decimal_is_formatted true _ _ 4 Hds Hne Hfs) as [Hshape _].
  cbn zeta in Hshape. etransitivity; [exact Hshape|]. reflexivity.
Defined.

(** ** [padAddress] *)

Section Addresses.
Import Address.
Implicit Types (c : ascii) (s hs : list ascii).

Lemma lower_hex_not_x c : is_hex c = true -> Ascii.eqb (lower c) "x"%char = false.
Proof.
  destruct c as [[] [] [] [] [] [] [] []]; vm_compute; intros H; try reflexivity;
    discriminate H.
Qed.

Lemma replace_0x_none s :
  Forall (fun c => Ascii.eqb c "x"%char = false) s -> replace_0x s = s.
Proof.
  induction 1 as [|c s Hc Hs IH]; [reflexivity|].
  destruct s as [|d s]; [reflexivity|].
  change (replace_0x (c :: d :: s))
    with (if Ascii.eqb c "0"%char && Ascii.eqb d "x"%char then s
          else c :: replace_0x (d :: s)).
  apply Forall_cons in Hs as [Hd _]. rewrite Hd, andb_false_r. now rewrite IH.
Qed.

Lemma length_padStart n s : (length s <= n)%nat -> length (padStart n s) = n.
Proof. intros Hle. unfold padStart. rewrite length_app, repeat_length. lia. Qed.

End Addresses.

(** X16. For the hexadecimal digits of an address, at most 64 of them,
    [padAddress] returns one word of 64 characters: the digits in lower
    case behind zeros.  It returns the same word whether the address comes
    with the prefix ['0x'], with ['0X'] or with none, and whatever the case
    of its letters. *)
Theorem padAddress_word (hs : list ascii) :
  Forall (fun c => Address.is_hex c = true) hs ->
  (length hs <= 64)%nat ->
  let word := repeat "0"%char (64 - length hs) ++ Address.toLowerCase hs in
  Address.padAddress ("0"%char :: "x"%char :: hs) = word /\
  Address.padAddress ("0"%char :: "X"%char :: hs) = word /\
  Address.padAddress hs = word /\
  Address.padAddress (Address.toLowerCase hs) = word /\
  length word = 64%nat.
Proof.
  intros Hhex Hlen word.
  assert (Hlower : Address.toLowerCase (Address.toLowerCase hs) = Address.toLowerCase hs).
  { unfold Address.toLowerCase. rewrite map_map. apply map_ext. intros c.
    destruct c as [[] [] [] [] [] [] [] []]; reflexivity. }
  assert (Hnone : Address.replace_0x (Address.toLowerCase hs) = Address.toLowerCase hs).
  { apply replace_0x_none. unfold Address.toLowerCase. apply Forall_map.
    eapply Forall_impl; [exact Hhex|]. apply lower_hex_not_x. }
  assert (Hword : Address.padStart 64 (Address.toLowerCase hs) = word).
  { unfold Address.padStart, word, Address.toLowerCase. now rewrite length_map. }
  unfold Address.padAddress. repeat split.
  - exact Hword.
  - exact Hword.
  - now rewrite Hnone.
  - now rewrite Hlower, Hnone.
  - unfold word, Address.toLowerCase. rewrite length_app, repeat_length, length_map. lia.
Qed.

Lemma padAddress_word_witness :
  let hs := list_ascii_of_string "a26762470fc8F22b4A504fedd83D2f878314A1D9" in
  Forall (fun c => Address.is_hex c = true) hs /\
  (length hs <= 64)%nat /\
  Address.padAddress (list_ascii_of_string "0xa26762470fc8F22b4A504fedd83D2f878314A1D9")
  = list_ascii_of_string "000000000000000000000000a26762470fc8f22b4a504fedd83d2f878314a1d9".
Proof.
  intros hs.
  assert (Hhex : Forall (fun c => Address.is_hex c = true) hs) by repeat constructor.
  assert (Hlen : (length hs <= 64)%nat) by (cbn; lia).
  split; [exact Hhex|]. split; [exact Hlen|].
  destruct (padAddress_word hs Hhex Hlen) as (Hprefixed & _).
  etransitivity; [exact Hprefixed|]. reflexivity.
Defined.

(** ** [withRetry] *)

Section Retries.
Import Retry.
Context {T : Type}.
Implicit Types (request : nat -> outcome T) (e : error).

Lemma attempts_all_retryable request delay remaining : forall attempt lastError,
  (forall k, (attempt <= k < attempt + remaining)%nat ->
     exists e, request k = Rejected e /\ retryable e = true) ->
  attempts request delay remaining attempt lastError
  = (Threw (match remaining with
            | O => lastError
            | S n => match request (attempt + n)%nat with
                     | Rejected e => Some e
                     | Resolved _ => None
                     end
            end),
     map (fun k => delay * 2 ^ Z.of_nat k) (seq attempt remaining)).
Proof.
  induction remaining as [|n IH]; intros attempt lastError Hall; [reflexivity|].
  destruct (Hall attempt ltac:(lia)) as (e & He & Hretry).
  cbn [attempts seq map]. rewrite He, Hretry.
  rewrite (IH (S attempt) (Some e)) by (intros k Hk; apply Hall; lia).
  f_equal. f_equal. destruct n as [|n].
  - rewrite Nat.add_0_r, He. reflexivity.
  - now replace (S attempt + n)%nat with (attempt + S n)%nat by lia.
Qed.

Lemma attempts_first_settled request delay k : forall remaining attempt lastError,
  (k < remaining)%nat ->
  (forall j, (attempt <= j < attempt + k)%nat ->
     exists e, request j = Rejected e /\ retryable e = true) ->
  (forall e, request (attempt + k)%nat = Rejected e -> retryable e = false) ->
  attempts request delay remaining attempt lastError
  = (match request (attempt + k)%nat with
     | Resolved value => Returned value
     | Rejected e => Threw (Some e)
     end,
     map (fun j => delay * 2 ^ Z.of_nat j) (seq attempt k)).
Proof.
  induction k as [|k IH]; intros remaining attempt lastError Hk Hbefore Hsettled.
  - destruct remaining as [|n]; [lia|]. rewrite Nat.add_0_r in *. cbn [attempts seq map].
    destruct (request attempt) as [v|e] eqn:Hr; [reflexivity|].
    now rewrite (Hsettled e eq_refl).
  - destruct remaining as [|n]; [lia|].
    destruct (Hbefore attempt ltac:(lia)) as (e & He & Hretry).
    cbn [attempts seq map]. rewrite He, Hretry.
    rewrite (IH n (S attempt) (Some e)); try lia.
    + now replace (S attempt + k)%nat with (attempt + S k)%nat by lia.
    + intros j Hj. apply Hbefore. lia.
    + intros e'. replace (S attempt + k)%nat with (attempt + S k)%nat by lia. apply Hsettled.
Qed.

Lemma sum_of_waits delay n :
  foldr Z.add 0 (map (fun k => delay * 2 ^ Z.of_nat k) (seq 0 n)) = delay * (2 ^ Z.of_nat n - 1).
Proof.
  induction n as [|n IH]; [cbn; lia|].
  rewrite seq_S, map_app, foldr_app. cbn [map foldr Nat.add].
  assert (Hshift : forall (l : list Z) (x : Z), foldr Z.add x l = foldr Z.add 0 l + x).
  { clear. induction l as [|y l IHl]; intros x; cbn; [lia|]. rewrite IHl. lia. }
  rewrite Hshift, IH. rewrite Nat2Z.inj_succ, Z.pow_succ_r by lia. lia.
Qed.

End Retries.





(** ** Polls that report no change *)

Lemma unchanged_update s c h p t tc :
  initialized s = true -> lastAmount s = Wei c -> history s = h ++ [p] ->
  tc - windowMs <= t ->
  update (Numeric (Some c)) t tc s
  = set_history (List.filter (in_window tc) h ++ [set_timestamp t p]) s.
Proof.
  intros Hon Hl Hh Hnear.
  rewrite (update_later s (Numeric (Some c)) t tc c c Hon eq_refl Hl).
  rewrite Z.ltb_irrefl, Z.sub_diag. cbn [Z.ltb Z.compare].
  rewrite Hh, alter_last_snoc.
  replace (0 <? length (h ++ [p]))%nat with true
    by (symmetry; apply Nat.ltb_lt; rewrite length_app; cbn; lia).
  unfold cleanup. cbn [history set_history]. fold (in_window tc).
  change (fun point => tc - windowMs <=? timestamp point) with (in_window tc).
  rewrite List.filter_app. cbn [List.filter].
  replace (in_window tc (set_timestamp t p)) with true
    by (symmetry; unfold in_window; cbn; now apply Z.leb_le).
  reflexivity.
Qed.

Lemma unchanged_run c cs : forall s h p,
  initialized s = true -> lastAmount s = Wei c -> history s = h ++ [p] ->
  nonneg_deltas s -> unchanged c cs = true ->
  let s' := run cs s in
  initialized s' = true /\ lastAmount s' = Wei c /\ initialAmount s' = initialAmount s /\
  nonneg_deltas s' /\
  exists h' p', history s' = h' ++ [p'] /\ amount p' = amount p /\
    timestamp p' = List.last (map called_at cs) (timestamp p).
Proof.
  induction cs as [|call cs IH]; intros s h p Hon Hl Hh Hn Hcs.
  { cbn. repeat split; try assumption. now exists h, p. }
  unfold unchanged in Hcs. cbn [forallb] in Hcs. apply andb_prop in Hcs as [Hcall Hcs].
  destruct call as [[[c'|]|] t tc| | |]; try discriminate Hcall.
  apply andb_prop in Hcall as [Hc Hnear]. apply Z.eqb_eq in Hc as ->.
  apply Z.leb_le in Hnear.
  rewrite run_cons. cbn [step]. rewrite (unchanged_update s c h p t tc Hon Hl Hh Hnear).
  set (s1 := set_history _ s).
  assert (Hn1 : nonneg_deltas s1).
  { unfold nonneg_deltas in *. cbn. rewrite Hh in Hn. apply Forall_app in Hn as [Hnh Hnp].
    apply Forall_app. split; [now apply Forall_filter_bool|].
    apply Forall_cons in Hnp as [Hnp _]. now repeat constructor. }
  destruct (IH s1 (List.filter (in_window tc) h) (set_timestamp t p) Hon Hl eq_refl Hn1 Hcs)
    as (Hon' & Hl' & Hb' & Hn' & h' & p' & Hh' & Ha' & Ht').
  repeat split; try assumption.
  exists h', p'. repeat split; [exact Hh'|exact Ha'|].
  rewrite Ht'. cbn [map called_at set_timestamp timestamp]. symmetry. apply last_cons_default.
Qed.

(** X19. A gain does not leave the window while polls keep reporting the
    same value.  When the history ends with a sample [p] and [update] is
    called again and again with the last amount, each call dates [p] anew
    instead of adding a sample; [p] is never pruned, however long ago its
    amount was gained, and a [getStats] within the window of the last call
    still counts it in the window rate. *)
Theorem unchanged_polls_keep_the_last_gain (s : RewardHistory) (c : Z)
    (h : list RewardPoint) (p : RewardPoint) (cs : list call) (t tc : Z) (tc' ti' now' : Z) :
  initialized s = true ->
  lastAmount s = Wei c ->
  numeric s = true ->
  history s = h ++ [p] ->
  nonneg_deltas s ->
  unchanged c (cs ++ [ Update (Numeric (Some c)) t tc ]) = true ->
  tc' - windowMs <= t ->
  now' - windowMs <= t ->
  let s' := run (cs ++ [ Update (Numeric (Some c)) t tc ]) s in
  last (history s') = Some {| timestamp := t; amount := amount p |} /\
  exists stats,
    fst (getStats tc' ti' now' s') = Some stats /\
    Z.quot (amount p) 5 <= perMinute (currentRate stats).
Proof.
  intros Hon Hl Hnum Hh Hn Hcs Hprune Hnow s'.
  destruct (unchanged_run c _ s h p Hon Hl Hh Hn Hcs)
    as (Hon' & Hl' & Hb' & Hn' & h' & p' & Hh' & Ha' & Ht').
  fold s' in Hon', Hl', Hb', Hn', Hh'.
  rewrite map_app in Ht'. cbn [map called_at] in Ht'. rewrite List.last_last in Ht'.
  assert (Hp' : p' = {| timestamp := t; amount := amount p |}).
  { destruct p' as [tp ap]. cbn in Ha', Ht'. now subst. }
  split; [rewrite Hh', last_snoc; now f_equal|].
  assert (Hnum' : numeric s' = true).
  { unfold numeric in *. rewrite Hl', Hb'. now rewrite Hl in Hnum. }
  rewrite (getStats_numeric tc' ti' now' s' Hnum'). cbn [fst].
  eexists; split; [reflexivity|]. cbn [currentRate perMinute].
  rewrite initialize_on by exact Hon'. rewrite history_cleanup, Hh', !List.filter_app.
  cbn [List.filter].
  replace (in_window tc' p') with true
    by (symmetry; rewrite Hp'; unfold in_window; cbn; now apply Z.leb_le).
  cbn [List.filter].
  replace (in_window now' p') with true
    by (symmetry; rewrite Hp'; unfold in_window; cbn; now apply Z.leb_le).
  rewrite sum_amounts_snoc, Ha'.
  unfold nonneg_deltas in Hn'. rewrite Hh' in Hn'. apply Forall_app in Hn' as [Hnh Hnp].
  apply Forall_cons in Hnp as [Hnp _]. rewrite Ha' in Hnp.
  pose proof (sum_amounts_filter_le (in_window now') _
                (Forall_filter_bool _ (in_window tc') _ Hnh)) as [Hsum _].
  apply Z.quot_le_mono; lia.
Qed.

Lemma unchanged_polls_keep_the_last_gain_witness :
  let s := run [ Update (ether 0) 0 0; Update (ether 1) 1000 1000 ] (new_RewardHistory 0) in
  let cs := map (fun k => Update (ether 1) (Z.of_nat k * 60000) (Z.of_nat k * 60000))
              (seq 1 59) in
  initialized s = true /\
  lastAmount s = Wei (1 * 10 ^ 18) /\
  history s = [ {| timestamp := 0; amount := 0 |} ]
              ++ [ {| timestamp := 1000; amount := 10 ^ 18 |} ] /\
  unchanged (1 * 10 ^ 18) (cs ++ [ Update (ether 1) 3600000 3600000 ]) = true /\
  history (run (cs ++ [ Update (ether 1) 3600000 3600000 ]) s)
    = [ {| timestamp := 3600000; amount := 10 ^ 18 |} ] /\
  exists stats,
    fst (getStats 3600001 3600001 3600001 (run (cs ++ [ Update (ether 1) 3600000 3600000 ]) s))
      = Some stats /\
    Z.quot (10 ^ 18) 5 <= perMinute (currentRate stats).
Proof.
  intros s cs. do 3 (split; [reflexivity|]).
  assert (Hcs : unchanged (1 * 10 ^ 18) (cs ++ [ Update (ether 1) 3600000 3600000 ]) = true)
    by (vm_compute; reflexivity).
  split; [exact Hcs|]. split; [vm_compute; reflexivity|].
  assert (Hn : nonneg_deltas s) by (repeat constructor; cbn; lia).
  assert (H1 : 3600001 - windowMs <= 3600000) by (unfold windowMs; lia).
  exact (proj2 (unchanged_polls_keep_the_last_gain s (1 * 10 ^ 18)
                  [ {| timestamp := 0; amount := 0 |} ]
                  {| timestamp := 1000; amount := 10 ^ 18 |}
                  cs 3600000 3600000 3600001 3600001 3600001
                  eq_refl eq_refl eq_refl eq_refl Hn Hcs H1 H1)).
Defined.
